(** * Benutzerliste: the user directory console

    A shallow embedding of the decision logic of the React components
    [Benutzerliste] (src/components/Benutzerliste.jsx) and [BenutzerForm]
    (BenutzerForm.jsx): the handling of the list response, the organisation
    index, the two client-side filters, the delete workflow, and the form's
    validation and submission.

    The components work on decoded JSON data, so the embedding keeps the
    data untyped ([Js.value]) and keeps the one kind of exception the code
    can run into, the TypeError of a property access on [null] or
    [undefined] or of a call of something that is not a function. *)

From Stdlib Require Import String Ascii List ZArith NArith Bool Lia.
From Stdlib Require Import Sorted Permutation DecimalString.
Import ListNotations.
Local Open Scope string_scope.
Set Warnings "-register-all".

(* ================================================================= *)
(** ** JavaScript values, as far as the components look at them *)

Module Js.

(** Decoded JSON.  A string is a sequence of code units below 256; a number
    is an integer (the components never compute with the numbers of a
    response, they test them for truthiness and print them when sorting).
    An object is its list of own properties, looked up from the front. *)
Inductive value : Type :=
| Undefined
| Null
| Boolean (b : bool)
| Number (n : Z)
| Str (s : string)
| Arr (elems : list value)
| Obj (props : list (string * value)).

Inductive exn : Type := TypeError.

(** The outcome of evaluating an expression or a statement list. *)
Inductive completion (A : Type) : Type :=
| Normal (a : A)
| Throw (e : exn).
Arguments Normal {A} a.
Arguments Throw {A} e.

Definition bind {A B} (c : completion A) (k : A -> completion B) : completion B :=
  match c with
  | Normal a => k a
  | Throw e => Throw e
  end.

Notation "x <- c ;; k" := (bind c (fun x => k))
  (at level 61, c at next level, right associativity).

(** ToBoolean. *)
Definition truthy (v : value) : bool :=
  match v with
  | Undefined | Null => false
  | Boolean b => b
  | Number n => negb (n =? 0)%Z
  | Str s => negb (s =? "")
  | Arr _ | Obj _ => true
  end.

Definition nullish (v : value) : bool :=
  match v with
  | Undefined | Null => true
  | _ => false
  end.

Definition isArray (v : value) : bool :=
  match v with
  | Arr _ => true
  | _ => false
  end.

(** The elements of an array, for the loops that run after an
    [Array.isArray] test. *)
Definition elements (v : value) : list value :=
  match v with
  | Arr elems => elems
  | _ => []
  end.

Fixpoint lookup (k : string) (props : list (string * value)) : option value :=
  match props with
  | [] => None
  | (k', v) :: rest => if k =? k' then Some v else lookup k rest
  end.

(** [{...props, [k]: v}]: the property keeps its place when it exists and
    is added at the end otherwise. *)
Fixpoint setProp (k : string) (v : value) (props : list (string * value))
  : list (string * value) :=
  match props with
  | [] => [(k, v)]
  | (k', v') :: rest =>
      if k =? k' then (k, v) :: rest else (k', v') :: setProp k v rest
  end.

(** Reading a property of an object. *)
Definition prop (props : list (string * value)) (k : string) : value :=
  match lookup k props with
  | Some x => x
  | None => Undefined
  end.

(** [v.k] for the property names the components use.  None of them is an
    array index, and [length] is the only one that strings and arrays
    answer by themselves. *)
Definition get (v : value) (k : string) : completion value :=
  match v with
  | Undefined | Null => Throw TypeError
  | Obj props =>
      Normal (prop props k)
  | Arr elems =>
      Normal (if k =? "length" then Number (Z.of_nat (List.length elems))
              else Undefined)
  | Str s =>
      Normal (if k =? "length" then Number (Z.of_nat (String.length s))
              else Undefined)
  | Boolean _ | Number _ => Normal Undefined
  end.

(** [v?.k] *)
Definition getOpt (v : value) (k : string) : value :=
  match get v k with
  | Normal x => x
  | Throw _ => Undefined
  end.

(** [v[0]] *)
Definition first (v : value) : completion value :=
  match v with
  | Undefined | Null => Throw TypeError
  | Arr elems => Normal (nth 0 elems Undefined)
  | Str s =>
      Normal (match s with
              | EmptyString => Undefined
              | String c _ => Str (String c EmptyString)
              end)
  | Obj props => Normal (prop props "0")
  | Boolean _ | Number _ => Normal Undefined
  end.

(** [a === b].  Two objects (or arrays) are equal when they are the same
    reference, which a tree of values does not record: the embedding
    answers [false], the answer for two objects decoded at different places
    of a response.  Without NaN, SameValueZero (the equality of [Set]) is
    the same relation. *)
Definition strictEquals (a b : value) : bool :=
  match a, b with
  | Undefined, Undefined => true
  | Null, Null => true
  | Boolean x, Boolean y => Bool.eqb x y
  | Number x, Number y => (x =? y)%Z
  | Str x, Str y => (x =? y)
  | _, _ => false
  end.

(** *** Strings *)

Definition isUpper (c : ascii) : bool :=
  let n := nat_of_ascii c in
  (((65 <=? n) && (n <=? 90)) || ((192 <=? n) && (n <=? 222) && negb (n =? 215)))%nat.

(** [toLowerCase] on code units below 256: A-Z and the capital letters of
    the Latin-1 block move up by 32. *)
Definition lowerChar (c : ascii) : ascii :=
  if isUpper c then ascii_of_nat (nat_of_ascii c + 32) else c.

Fixpoint lower (s : string) : string :=
  match s with
  | EmptyString => EmptyString
  | String c rest => String (lowerChar c) (lower rest)
  end.

(** [s.includes(t)] *)
Fixpoint includes (s t : string) : bool :=
  String.prefix t s ||
  match s with
  | EmptyString => false
  | String _ rest => includes rest t
  end.

(** White space and line terminators below 256: TAB, LF, VT, FF, CR, SP and
    NBSP.  It is the class [\s] of a regular expression and what [trim]
    removes. *)
Definition isSpace (c : ascii) : bool :=
  let n := nat_of_ascii c in
  (((9 <=? n) && (n <=? 13)) || (n =? 32) || (n =? 160))%nat.

Fixpoint trimStart (s : string) : string :=
  match s with
  | EmptyString => EmptyString
  | String c rest => if isSpace c then trimStart rest else s
  end.

Fixpoint trimEnd (s : string) : string :=
  match s with
  | EmptyString => EmptyString
  | String c rest =>
      match trimEnd rest with
      | EmptyString => if isSpace c then EmptyString else String c EmptyString
      | r => String c r
      end
  end.

Definition trim (s : string) : string := trimEnd (trimStart s).

(** [v.toLowerCase()] and [v.trim()]: decoded JSON has no functions, so
    only a string has these methods. *)
Definition toLowerCase (v : value) : completion string :=
  match v with
  | Str s => Normal (lower s)
  | Undefined | Null | Boolean _ | Number _ | Arr _ | Obj _ => Throw TypeError
  end.

Definition trimOf (v : value) : completion string :=
  match v with
  | Str s => Normal (trim s)
  | Undefined | Null | Boolean _ | Number _ | Arr _ | Obj _ => Throw TypeError
  end.

Fixpoint join (sep : string) (parts : list string) : string :=
  match parts with
  | [] => ""
  | [p] => p
  | p :: rest => p ++ sep ++ join sep rest
  end.

Fixpoint mapM {A B} (f : A -> completion B) (l : list A) : completion (list B) :=
  match l with
  | [] => Normal []
  | x :: rest => y <- f x ;; ys <- mapM f rest ;; Normal (y :: ys)
  end.

(** ToString, as the default comparison of [sort] applies it.  An object
    prints through [Object.prototype.toString] unless a property of its own
    hides that method or [valueOf]; the hiding property holds data, not a
    function, and the conversion fails. *)
Fixpoint toString (v : value) : completion string :=
  match v with
  | Undefined => Normal "undefined"
  | Null => Normal "null"
  | Boolean true => Normal "true"
  | Boolean false => Normal "false"
  | Number n => Normal (NilZero.string_of_int (Z.to_int n))
  | Str s => Normal s
  | Arr elems =>
      parts <- mapM (fun e => if nullish e then Normal "" else toString e) elems ;;
      Normal (join "," parts)
  | Obj props =>
      match lookup "toString" props with
      | None => Normal "[object Object]"
      | Some _ => Throw TypeError
      end
  end.

(** [Array.prototype.filter] with a callback that may throw. *)
Fixpoint filterM {A} (p : A -> completion bool) (l : list A) : completion (list A) :=
  match l with
  | [] => Normal []
  | x :: rest =>
      b <- p x ;;
      ys <- filterM p rest ;;
      Normal (if b then x :: ys else ys)
  end.

(** [Array.prototype.forEach] with a callback that updates a local
    variable of the enclosing function. *)
Fixpoint forEach {A S} (f : S -> A -> completion S) (l : list A) (s : S)
  : completion S :=
  match l with
  | [] => Normal s
  | x :: rest => s' <- f s x ;; forEach f rest s'
  end.

(** [Array.prototype.some] *)
Fixpoint someM {A} (p : A -> completion bool) (l : list A) : completion bool :=
  match l with
  | [] => Normal false
  | x :: rest => b <- p x ;; if b then Normal true else someM p rest
  end.

(** [a && b] and [a || b] where only the truthiness of the result is used. *)
Definition andThen (a : completion bool) (b : completion bool) : completion bool :=
  x <- a ;; if x then b else Normal false.

Definition orElse (a : completion bool) (b : completion bool) : completion bool :=
  x <- a ;; if x then Normal true else b.

(** [a || b] as a value. *)
Definition orValue (a b : value) : value := if truthy a then a else b.

(** [Set.prototype.add]: insertion order, no second copy. *)
Definition setAdd (v : value) (s : list value) : list value :=
  if existsb (strictEquals v) s then s else (s ++ [v])%list.

(** Stable insertion into a list sorted by its keys. *)
Fixpoint insertSorted (x : string * value) (l : list (string * value))
  : list (string * value) :=
  match l with
  | [] => [x]
  | y :: rest =>
      if String.ltb (fst x) (fst y) then x :: y :: rest
      else y :: insertSorted x rest
  end.

Definition sortByKey (l : list (string * value)) : list (string * value) :=
  fold_left (fun acc x => insertSorted x acc) l [].

(** [Array.prototype.sort()] without a comparison function: a stable sort by
    the code units of the elements' string forms.  An array of fewer than
    two elements is returned without any conversion. *)
Definition sort (l : list value) : completion (list value) :=
  match l with
  | [] | [_] => Normal l
  | _ =>
      keys <- mapM toString l ;;
      Normal (map snd (sortByKey (combine keys l)))
  end.

End Js.

(* ================================================================= *)
(** ** Regular expressions, as far as the e-mail pattern needs them *)

Module Regex.
Import Js.

Inductive regex : Type :=
| Void
| Eps
| Class (p : ascii -> bool)
| Seq (r1 r2 : regex)
| Alt (r1 r2 : regex)
| Star (r : regex).

(** [r+] *)
Definition Plus (r : regex) : regex := Seq r (Star r).

(** A literal character. *)
Definition Lit (c : ascii) : regex := Class (Ascii.eqb c).

Fixpoint nullable (r : regex) : bool :=
  match r with
  | Void => false
  | Eps => true
  | Class _ => false
  | Seq r1 r2 => nullable r1 && nullable r2
  | Alt r1 r2 => nullable r1 || nullable r2
  | Star _ => true
  end.

Fixpoint deriv (c : ascii) (r : regex) : regex :=
  match r with
  | Void => Void
  | Eps => Void
  | Class p => if p c then Eps else Void
  | Seq r1 r2 =>
      if nullable r1
      then Alt (Seq (deriv c r1) r2) (deriv c r2)
      else Seq (deriv c r1) r2
  | Alt r1 r2 => Alt (deriv c r1) (deriv c r2)
  | Star r1 => Seq (deriv c r1) (Star r1)
  end.

(** Whether the whole string is a word of [r]: what [/^r$/] looks for. *)
Fixpoint matches (r : regex) (s : string) : bool :=
  match s with
  | EmptyString => nullable r
  | String c rest => matches (deriv c r) rest
  end.

(** [/^r$/.test(v)]: the argument is converted to a string first. *)
Definition test (r : regex) (v : value) : completion bool :=
  s <- toString v ;; Normal (matches r s).

(** The words of a regular expression. *)
Inductive Matches : regex -> string -> Prop :=
| MEps : Matches Eps ""
| MClass p c : p c = true -> Matches (Class p) (String c "")
| MSeq r1 r2 s1 s2 : Matches r1 s1 -> Matches r2 s2 -> Matches (Seq r1 r2) (s1 ++ s2)
| MAltL r1 r2 s : Matches r1 s -> Matches (Alt r1 r2) s
| MAltR r1 r2 s : Matches r2 s -> Matches (Alt r1 r2) s
| MStarNil r : Matches (Star r) ""
| MStarApp r s1 s2 : Matches r s1 -> Matches (Star r) s2 -> Matches (Star r) (s1 ++ s2).

End Regex.

(* ================================================================= *)
(** ** The remote gateway (services/userService.js)

    Every operation of [userService] sends one request and hands on the
    decoded body, or rethrows the fault.  The components see a call and its
    outcome. *)

Module Gateway.
Import Js.

Inductive call : Type :=
| GetUsers (searchParams : value)
| GetUserById (userUid : value)
| CreateUser (userData : value)
| UpdateUser (userData : value)
| DeleteUser (userUid : value).

(** The error a rejected request carries; [responseMessage] is what
    [err.response?.data?.message] evaluates to. *)
Record fault : Type := { responseMessage : value }.

Inductive outcome : Type :=
| Resolved (data : value)
| Rejected (err : fault).

End Gateway.

(* ================================================================= *)
(** ** components/Benutzerliste.jsx *)

Module Benutzerliste.
Import Js Gateway.

(** The [useState] cells of the component. *)
Record state : Type := {
  users : list value;
  loading : bool;
  error : option string;
  searchTerm : string;
  organisationFilter : string;
  selectedUser : value;
  detailOpen : bool;
  deleteDialogOpen : bool;
  deleteTargetId : value;
  organisations : list value;
  formOpen : bool;
  editingUser : value
}.

Definition initial : state := {|
  users := [];
  loading := false;
  error := None;
  searchTerm := "";
  organisationFilter := "";
  selectedUser := Null;
  detailOpen := false;
  deleteDialogOpen := false;
  deleteTargetId := Null;
  organisations := [];
  formOpen := false;
  editingUser := Null
|}.

Definition setUsers (x : list value) (st : state) : state :=
  {| users := x; loading := loading st; error := error st;
     searchTerm := searchTerm st; organisationFilter := organisationFilter st;
     selectedUser := selectedUser st; detailOpen := detailOpen st;
     deleteDialogOpen := deleteDialogOpen st; deleteTargetId := deleteTargetId st;
     organisations := organisations st; formOpen := formOpen st;
     editingUser := editingUser st |}.

Definition setLoading (x : bool) (st : state) : state :=
  {| users := users st; loading := x; error := error st;
     searchTerm := searchTerm st; organisationFilter := organisationFilter st;
     selectedUser := selectedUser st; detailOpen := detailOpen st;
     deleteDialogOpen := deleteDialogOpen st; deleteTargetId := deleteTargetId st;
     organisations := organisations st; formOpen := formOpen st;
     editingUser := editingUser st |}.

Definition setError (x : option string) (st : state) : state :=
  {| users := users st; loading := loading st; error := x;
     searchTerm := searchTerm st; organisationFilter := organisationFilter st;
     selectedUser := selectedUser st; detailOpen := detailOpen st;
     deleteDialogOpen := deleteDialogOpen st; deleteTargetId := deleteTargetId st;
     organisations := organisations st; formOpen := formOpen st;
     editingUser := editingUser st |}.

Definition setSearchTerm (x : string) (st : state) : state :=
  {| users := users st; loading := loading st; error := error st;
     searchTerm := x; organisationFilter := organisationFilter st;
     selectedUser := selectedUser st; detailOpen := detailOpen st;
     deleteDialogOpen := deleteDialogOpen st; deleteTargetId := deleteTargetId st;
     organisations := organisations st; formOpen := formOpen st;
     editingUser := editingUser st |}.

Definition setOrganisationFilter (x : string) (st : state) : state :=
  {| users := users st; loading := loading st; error := error st;
     searchTerm := searchTerm st; organisationFilter := x;
     selectedUser := selectedUser st; detailOpen := detailOpen st;
     deleteDialogOpen := deleteDialogOpen st; deleteTargetId := deleteTargetId st;
     organisations := organisations st; formOpen := formOpen st;
     editingUser := editingUser st |}.

Definition setSelectedUser (x : value) (st : state) : state :=
  {| users := users st; loading := loading st; error := error st;
     searchTerm := searchTerm st; organisationFilter := organisationFilter st;
     selectedUser := x; detailOpen := detailOpen st;
     deleteDialogOpen := deleteDialogOpen st; deleteTargetId := deleteTargetId st;
     organisations := organisations st; formOpen := formOpen st;
     editingUser := editingUser st |}.

Definition setDetailOpen (x : bool) (st : state) : state :=
  {| users := users st; loading := loading st; error := error st;
     searchTerm := searchTerm st; organisationFilter := organisationFilter st;
     selectedUser := selectedUser st; detailOpen := x;
     deleteDialogOpen := deleteDialogOpen st; deleteTargetId := deleteTargetId st;
     organisations := organisations st; formOpen := formOpen st;
     editingUser := editingUser st |}.

Definition setDeleteDialogOpen (x : bool) (st : state) : state :=
  {| users := users st; loading := loading st; error := error st;
     searchTerm := searchTerm st; organisationFilter := organisationFilter st;
     selectedUser := selectedUser st; detailOpen := detailOpen st;
     deleteDialogOpen := x; deleteTargetId := deleteTargetId st;
     organisations := organisations st; formOpen := formOpen st;
     editingUser := editingUser st |}.

Definition setDeleteTargetId (x : value) (st : state) : state :=
  {| users := users st; loading := loading st; error := error st;
     searchTerm := searchTerm st; organisationFilter := organisationFilter st;
     selectedUser := selectedUser st; detailOpen := detailOpen st;
     deleteDialogOpen := deleteDialogOpen st; deleteTargetId := x;
     organisations := organisations st; formOpen := formOpen st;
     editingUser := editingUser st |}.

Definition setOrganisations (x : list value) (st : state) : state :=
  {| users := users st; loading := loading st; error := error st;
     searchTerm := searchTerm st; organisationFilter := organisationFilter st;
     selectedUser := selectedUser st; detailOpen := detailOpen st;
     deleteDialogOpen := deleteDialogOpen st; deleteTargetId := deleteTargetId st;
     organisations := x; formOpen := formOpen st;
     editingUser := editingUser st |}.

Definition setFormOpen (x : bool) (st : state) : state :=
  {| users := users st; loading := loading st; error := error st;
     searchTerm := searchTerm st; organisationFilter := organisationFilter st;
     selectedUser := selectedUser st; detailOpen := detailOpen st;
     deleteDialogOpen := deleteDialogOpen st; deleteTargetId := deleteTargetId st;
     organisations := organisations st; formOpen := x;
     editingUser := editingUser st |}.

Definition setEditingUser (x : value) (st : state) : state :=
  {| users := users st; loading := loading st; error := error st;
     searchTerm := searchTerm st; organisationFilter := organisationFilter st;
     selectedUser := selectedUser st; detailOpen := detailOpen st;
     deleteDialogOpen := deleteDialogOpen st; deleteTargetId := deleteTargetId st;
     organisations := organisations st; formOpen := formOpen st;
     editingUser := x |}.

(** *** API communication *)

Definition msgLoad : string := "Fehler beim Laden der Benutzer".

(** Lines 117-130: the three formats of a list response. *)
Definition extractUserList (response : value) : completion value :=
  hal <- andThen (e <- get response "_embedded" ;; Normal (truthy e))
                 (e <- get response "_embedded" ;;
                  u <- get e "users" ;; Normal (truthy u)) ;;
  if hal then
    e <- get response "_embedded" ;; get e "users"
  else if isArray response then
    Normal response
  else
    paged <- andThen (c <- get response "content" ;; Normal (truthy c))
                     (c <- get response "content" ;; Normal (isArray c)) ;;
    if paged then get response "content" else Normal (Arr []).

(** Line 134: [Array.isArray(userList) ? userList : []] *)
Definition asArray (userList : value) : list value :=
  if isArray userList then elements userList else [].

(** What a response becomes in the [users] cell. *)
Definition normalize (response : value) : completion (list value) :=
  userList <- extractUserList response ;;
  Normal (asArray userList).

(** Lines 144-148, the inner loop over the organisations of one user. *)
Definition addOrganisation (orgSet : list value) (org : value)
  : completion (list value) :=
  name <- get org "orgName" ;;
  Normal (if truthy name then setAdd name orgSet else orgSet).

(** Lines 141-150, the body of the loop over the users. *)
Definition addOrganisationsOf (orgSet : list value) (user : value)
  : completion (list value) :=
  isList <- andThen (o <- get user "organisations" ;; Normal (truthy o))
                    (o <- get user "organisations" ;; Normal (isArray o)) ;;
  if isList then
    o <- get user "organisations" ;;
    forEach addOrganisation (elements o) orgSet
  else Normal orgSet.

(** Lines 139-153: [Array.from(orgSet).sort()] of the collected names. *)
Definition organisationIndex (userList : list value) : completion (list value) :=
  orgSet <- forEach addOrganisationsOf userList [] ;;
  sort orgSet.

(** [fetchUsers(params)] with the outcome of its one gateway call.  A throw
    inside [try] is caught at the place it happens: the cells set before it
    keep their new values. *)
Definition fetchUsers (params : value) (reply : outcome) (st : state)
  : list call * state :=
  let st0 := setError None (setLoading true st) in
  let caught (s : state) := setError (Some msgLoad) s in
  let st1 :=
    match reply with
    | Rejected _ => caught st0
    | Resolved response =>
        match extractUserList response with
        | Throw _ => caught st0
        | Normal userList =>
            let st' := setUsers (asArray userList) st0 in
            if isArray userList && (0 <? List.length (elements userList))%nat then
              match organisationIndex (elements userList) with
              | Throw _ => caught st'
              | Normal orgs => setOrganisations orgs st'
              end
            else st'
        end
    end in
  ([GetUsers params], setLoading false st1).

(** *** Search and filter *)

(** [user.f && user.f.toLowerCase().includes(searchLower)] *)
Definition fieldIncludes (user : value) (f : string) (searchLower : string)
  : completion bool :=
  andThen (x <- get user f ;; Normal (truthy x))
          (x <- get user f ;; l <- toLowerCase x ;; Normal (includes l searchLower)).

(** Lines 249-255, the callback of the name filter. *)
Definition matchesName (searchLower : string) (user : value) : completion bool :=
  orElse (orElse (orElse (fieldIncludes user "firstname" searchLower)
                         (fieldIncludes user "lastname" searchLower))
                 (fieldIncludes user "username" searchLower))
         (fieldIncludes user "mail" searchLower).

(** [v.some(p)]: only an array has the method. *)
Definition some (v : value) (p : value -> completion bool) : completion bool :=
  match v with
  | Arr elems => someM p elems
  | Undefined | Null | Boolean _ | Number _ | Str _ | Obj _ => Throw TypeError
  end.

(** Lines 260-264, the callback of the organisation filter. *)
Definition matchesOrganisation (orgFilter : string) (user : value)
  : completion bool :=
  andThen (o <- get user "organisations" ;; Normal (truthy o))
          (o <- get user "organisations" ;;
           some o (fun org => n <- get org "orgName" ;;
                              Normal (strictEquals n (Str orgFilter)))).

(** Lines 243-265: the list [filtered] that [applyFilters] stores. *)
Definition filtered (userList : list value) (nameFilter orgFilter : string)
  : completion (list value) :=
  l1 <- (if truthy (Str nameFilter)
         then filterM (matchesName (lower nameFilter)) userList
         else Normal userList) ;;
  if truthy (Str orgFilter)
  then filterM (matchesOrganisation orgFilter) l1
  else Normal l1.

(** [applyFilters(nameFilter, orgFilter)].  [reply] is the outcome of the
    reload that the function starts when no filter is active. *)
Definition applyFilters (reply : outcome) (nameFilter orgFilter : string)
  (st : state) : completion (list call * state) :=
  if negb (truthy (Str nameFilter)) && negb (truthy (Str orgFilter)) then
    Normal (fetchUsers (Obj []) reply st)
  else
    l <- filtered (users st) nameFilter orgFilter ;;
    Normal ([], setUsers l st).

Definition handleNameSearch (reply : outcome) (value : string) (st : state)
  : completion (list call * state) :=
  applyFilters reply value (organisationFilter st) (setSearchTerm value st).

Definition handleOrganisationFilter (reply : outcome) (value : string)
  (st : state) : completion (list call * state) :=
  applyFilters reply (searchTerm st) value (setOrganisationFilter value st).

(** *** Detail view *)

Definition msgDetails : string := "Fehler beim Laden der Benutzerdetails".

Definition handleViewDetails (userId : value) (reply : outcome) (st : state)
  : list call * state :=
  ([GetUserById userId],
   match reply with
   | Rejected _ => setError (Some msgDetails) st
   | Resolved response =>
       match get response "content" with
       | Throw _ => setError (Some msgDetails) st
       | Normal c =>
           let userData := if truthy c then c else response in
           setDetailOpen true (setSelectedUser userData st)
       end
   end).

Definition handleCloseDetail (st : state) : state :=
  setSelectedUser Null (setDetailOpen false st).

(** *** Delete *)

Definition msgDelete : string :=
  "Fehler beim L" ++ String (ascii_of_nat 246) "schen des Benutzers".

Definition handleOpenDeleteDialog (userId : value) (st : state) : state :=
  setDeleteDialogOpen true (setDeleteTargetId userId st).

Definition handleCloseDeleteDialog (st : state) : state :=
  setDeleteTargetId Null (setDeleteDialogOpen false st).

(** Line 344: [users.filter(user => user.userUid !== deleteTargetId)].  The
    comparison is exact for identities that are strings, numbers or
    booleans (see [strictEquals]). *)
Definition withoutTarget (userList : list value) (target : value)
  : completion (list value) :=
  filterM (fun user => uid <- get user "userUid" ;;
                       Normal (negb (strictEquals uid target))) userList.

Definition handleConfirmDelete (reply : outcome) (st : state)
  : list call * state :=
  ([DeleteUser (deleteTargetId st)],
   match reply with
   | Rejected _ => setError (Some msgDelete) st
   | Resolved _ =>
       match withoutTarget (users st) (deleteTargetId st) with
       | Throw _ => setError (Some msgDelete) st
       | Normal rest =>
           setError None (handleCloseDeleteDialog (setUsers rest st))
       end
   end).

(** *** Create and edit *)

Definition handleOpenCreateForm (st : state) : state :=
  setFormOpen true (setEditingUser Null st).

Definition handleOpenEditForm (user : value) (st : state) : state :=
  setFormOpen true (setEditingUser user st).

Definition handleCloseForm (st : state) : state :=
  setEditingUser Null (setFormOpen false st).

Definition handleFormSuccess (reply : outcome) (st : state) : list call * state :=
  let (calls, st') := fetchUsers (Obj []) reply st in
  (calls, handleCloseForm st').

(** *** The name cells of a table row (lines 561-564) *)

Definition cellUsername (user : value) : completion value :=
  a <- get user "username" ;; Normal (orValue a (Str "-")).

Definition cellFirstname (user : value) : completion value :=
  a <- get user "firstname" ;; b <- get user "firstName" ;;
  Normal (orValue (orValue a b) (Str "-")).

Definition cellLastname (user : value) : completion value :=
  a <- get user "lastname" ;; b <- get user "lastName" ;;
  Normal (orValue (orValue a b) (Str "-")).

Definition cellMail (user : value) : completion value :=
  a <- get user "mail" ;; b <- get user "email" ;;
  Normal (orValue (orValue a b) (Str "-")).

(** *** The organisation and role cells of a table row (lines 545-547) *)

Section Row.

(** [x > 0] on the value of a [length] property, as in the form. *)
Variable gtZero : value -> bool.

(** Line 545 *)
Definition rowFirstOrg (user : value) : completion value :=
  some <- andThen (o <- get user "organisations" ;; Normal (truthy o))
                  (o <- get user "organisations" ;;
                   n <- get o "length" ;; Normal (gtZero n)) ;;
  if some then o <- get user "organisations" ;; first o
  else Normal Null.

(** Line 546: [firstOrg ? firstOrg.orgName : '-'] *)
Definition cellOrganisation (user : value) : completion value :=
  firstOrg <- rowFirstOrg user ;;
  if truthy firstOrg then get firstOrg "orgName" else Normal (Str "-").

(** Line 547 *)
Definition cellRole (user : value) : completion value :=
  firstOrg <- rowFirstOrg user ;;
  some <- andThen (andThen (Normal (truthy firstOrg))
                           (r <- get firstOrg "roles" ;; Normal (truthy r)))
                  (r <- get firstOrg "roles" ;;
                   n <- get r "length" ;; Normal (gtZero n)) ;;
  if some then
    r <- get firstOrg "roles" ;; f <- first r ;; get f "roleName"
  else Normal (Str "-").

End Row.

(** *** The timer callback of [extractOrganisations] (lines 176-190)

    The callback reads the [users] of the render that created it
    ([rendered]) and sets the index in the state of the moment it runs.  An
    exception in a timer callback reaches no handler of the component; no
    cell is set. *)
Definition extractOrganisations (rendered st : state) : state :=
  match organisationIndex (users rendered) with
  | Normal orgs => setOrganisations orgs st
  | Throw _ => st
  end.

End Benutzerliste.

(* ================================================================= *)
(** ** BenutzerForm.jsx *)

Module BenutzerForm.
Import Js Gateway Regex.

(** The [useState] cells of the form.  [formData] and [errors] are objects;
    [error] is [null] or what the failed submission left. *)
Record state : Type := {
  formData : list (string * value);
  errors : list (string * value);
  loading : bool;
  error : value;
  success : bool
}.

Definition emptyForm : list (string * value) :=
  [("username", Str ""); ("firstname", Str ""); ("lastname", Str "");
   ("mail", Str ""); ("phone", Str ""); ("organisation", Str "");
   ("role", Str "")].

Definition initial : state :=
  {| formData := emptyForm; errors := []; loading := false; error := Null;
     success := false |}.

Definition setFormData (x : list (string * value)) (st : state) : state :=
  {| formData := x; errors := errors st; loading := loading st;
     error := error st; success := success st |}.

Definition setErrors (x : list (string * value)) (st : state) : state :=
  {| formData := formData st; errors := x; loading := loading st;
     error := error st; success := success st |}.

Definition setLoading (x : bool) (st : state) : state :=
  {| formData := formData st; errors := errors st; loading := x;
     error := error st; success := success st |}.

Definition setError (x : value) (st : state) : state :=
  {| formData := formData st; errors := errors st; loading := loading st;
     error := x; success := success st |}.

Definition setSuccess (x : bool) (st : state) : state :=
  {| formData := formData st; errors := errors st; loading := loading st;
     error := error st; success := x |}.

(** The [name] attributes of the form's input fields. *)
Definition fieldNames : list string :=
  ["username"; "firstname"; "lastname"; "mail"; "phone"; "organisation"; "role"].

Section Load.

(** [x > 0], applied to the value of a [length] property.  For a number it
    is the comparison of numbers and for [undefined] it is false; any other
    value is converted to a number first, and that conversion is left
    open. *)
Variable gtZero : value -> bool.

(** Lines 123-125 *)
Definition firstOrgOf (editUser : value) : completion value :=
  some <- andThen (o <- get editUser "organisations" ;; Normal (truthy o))
                  (o <- get editUser "organisations" ;;
                   n <- get o "length" ;; Normal (gtZero n)) ;;
  if some then o <- get editUser "organisations" ;; first o
  else Normal Null.

(** Line 135 *)
Definition firstRoleOf (firstOrg : value) : completion value :=
  some <- andThen (Normal (truthy (getOpt firstOrg "roles")))
                  (r <- get firstOrg "roles" ;;
                   n <- get r "length" ;; Normal (gtZero n)) ;;
  if some then
    r <- get firstOrg "roles" ;; f <- first r ;; get f "roleName"
  else Normal (Str "").

(** The effect that runs when [editUser] or [open] changes. *)
Definition load (editUser : value) (st : state) : completion state :=
  st' <- (if truthy editUser then
            firstOrg <- firstOrgOf editUser ;;
            uid <- get editUser "userUid" ;;
            username <- get editUser "username" ;;
            firstname <- get editUser "firstname" ;;
            firstName <- get editUser "firstName" ;;
            lastname <- get editUser "lastname" ;;
            lastName <- get editUser "lastName" ;;
            mail <- get editUser "mail" ;;
            email <- get editUser "email" ;;
            phone <- get editUser "phone" ;;
            role <- firstRoleOf firstOrg ;;
            Normal (setFormData
              [("userUid", orValue uid (Str ""));
               ("username", orValue username (Str ""));
               ("firstname", orValue (orValue firstname firstName) (Str ""));
               ("lastname", orValue (orValue lastname lastName) (Str ""));
               ("mail", orValue (orValue mail email) (Str ""));
               ("phone", orValue phone (Str ""));
               ("organisation", orValue (getOpt firstOrg "orgName") (Str ""));
               ("role", role)] st)
          else Normal (setFormData emptyForm st)) ;;
  Normal (setSuccess false (setError Null (setErrors [] st'))).

End Load.

(** *** Event handlers *)

Definition handleChange (name value : string) (st : state) : state :=
  let st' := setFormData (setProp name (Str value) (formData st)) st in
  if truthy (prop (errors st) name)
  then setErrors (setProp name Null (errors st)) st'
  else st'.

Definition msgUsername : string := "Benutzername ist erforderlich".
Definition msgFirstname : string := "Vorname ist erforderlich".
Definition msgLastname : string := "Nachname ist erforderlich".
Definition msgMailRequired : string := "E-Mail ist erforderlich".
Definition msgMailInvalid : string :=
  "Ung" ++ String (ascii_of_nat 252) "ltige E-Mail-Adresse".
Definition msgSave : string :=
  "Fehler beim Speichern des Benutzers. Bitte versuchen Sie es erneut.".

(** [!v || v.trim() === ''] *)
Definition isBlank (v : value) : completion bool :=
  orElse (Normal (negb (truthy v))) (t <- trimOf v ;; Normal (t =? "")).

(** [[^\s@]] *)
Definition notSpaceAt (c : ascii) : bool :=
  negb (isSpace c || Ascii.eqb c "@").

(** [/^[^\s@]+@[^\s@]+\.[^\s@]+$/] *)
Definition emailPattern : regex :=
  Seq (Plus (Class notSpaceAt))
 (Seq (Lit "@")
 (Seq (Plus (Class notSpaceAt))
 (Seq (Lit ".")
      (Plus (Class notSpaceAt))))).

(** [validateForm()]: the object [newErrors] that it stores in [errors],
    and its return value. *)
Definition validateForm (formData : list (string * value))
  : completion (list (string * value) * bool) :=
  let newErrors := [] in
  b <- isBlank (prop formData "username") ;;
  let newErrors :=
    if b then setProp "username" (Str msgUsername) newErrors else newErrors in
  b <- isBlank (prop formData "firstname") ;;
  let newErrors :=
    if b then setProp "firstname" (Str msgFirstname) newErrors else newErrors in
  b <- isBlank (prop formData "lastname") ;;
  let newErrors :=
    if b then setProp "lastname" (Str msgLastname) newErrors else newErrors in
  b <- isBlank (prop formData "mail") ;;
  newErrors <-
    (if b then Normal (setProp "mail" (Str msgMailRequired) newErrors)
     else
       ok <- test emailPattern (prop formData "mail") ;;
       Normal (if negb ok
               then setProp "mail" (Str msgMailInvalid) newErrors
               else newErrors)) ;;
  Normal (newErrors, (List.length newErrors =? 0)%nat).

(** [handleSubmit()] with the outcome of the gateway call it may make.  The
    function is not inside [try] while it validates: an exception there
    leaves the handler. *)
Definition handleSubmit (editUser : value) (reply : outcome) (st : state)
  : completion (list call * state) :=
  v <- validateForm (formData st) ;;
  let st1 := setErrors (fst v) st in
  if negb (snd v) then Normal ([], st1)
  else
    let st2 := setError Null (setLoading true st1) in
    match andThen (Normal (truthy editUser))
                  (u <- get editUser "userUid" ;; Normal (truthy u)) with
    | Throw _ => Normal ([], setLoading false (setError (Str msgSave) st2))
    | Normal update =>
        let c := if update then UpdateUser (Obj (formData st))
                 else CreateUser (Obj (formData st)) in
        match reply with
        | Resolved _ => Normal ([c], setLoading false (setSuccess true st2))
        | Rejected err =>
            Normal ([c], setLoading false
                     (setError (orValue (responseMessage err) (Str msgSave)) st2))
        end
    end.

(** [handleClose()] *)
Definition handleClose (st : state) : state :=
  setSuccess false (setError Null (setErrors [] (setFormData emptyForm st))).

(** *** What the dialog renders *)

(** The [disabled] attribute of the input field [name] (lines 320, 350 and
    the like): every field is locked while a submission runs, the username
    also whenever a record is edited. *)
Definition disabled (editUser : value) (st : state) (name : string) : bool :=
  if name =? "username" then loading st || truthy editUser else loading st.

(** A change of the field [name] by the user: a locked field sends no
    change event. *)
Definition change (editUser : value) (name value : string) (st : state) : state :=
  if disabled editUser st name then st else handleChange name value st.

(** Line 288, the title of the dialog. *)
Definition title (editUser : value) : string :=
  if truthy editUser then "Benutzer bearbeiten" else "Neuer Benutzer".

End BenutzerForm.

(* ================================================================= *)
(** ** BenutzerDetail.jsx *)

Module BenutzerDetail.
Import Js.

(** What the detail view shows of one membership: its name and, when it has
    roles, their names. *)
Record membership : Type := {
  organisation : value;
  roles : option (list value)
}.

(** What the detail view shows of a user. *)
Record view : Type := {
  firstname : value;
  lastname : value;
  username : value;
  mail : value;
  phone : value;
  memberships : list membership;
  status : option string
}.

Definition msgDeleted : string :=
  "Gel" ++ String (ascii_of_nat 246) "scht".

(** [v.map(f)]: only an array has the method. *)
Definition mapArray {B} (v : value) (f : value -> completion B)
  : completion (list B) :=
  match v with
  | Arr elems => mapM f elems
  | Undefined | Null | Boolean _ | Number _ | Str _ | Obj _ => Throw TypeError
  end.

(** [a !== undefined] *)
Definition isDefined (v : value) : bool :=
  match v with
  | Undefined => false
  | _ => true
  end.

Section Render.

Variable gtZero : value -> bool.

(** The card of one organisation. *)
Definition renderMembership (org : value) : completion membership :=
  name <- get org "orgName" ;;
  some <- andThen (r <- get org "roles" ;; Normal (truthy r))
                  (r <- get org "roles" ;;
                   n <- get r "length" ;; Normal (gtZero n)) ;;
  shown <- (if some then
              r <- get org "roles" ;;
              labels <- mapArray r (fun role => get role "roleName") ;;
              Normal (Some labels)
            else Normal None) ;;
  Normal {| organisation := orValue name (Str "Ohne Organisation");
            roles := shown |}.

(** The component: [None] is the text shown when there is no user. *)
Definition render (user : value) : completion (option view) :=
  if negb (truthy user) then Normal None
  else
    fn <- get user "firstname" ;; fN <- get user "firstName" ;;
    ln <- get user "lastname" ;; lN <- get user "lastName" ;;
    un <- get user "username" ;;
    ma <- get user "mail" ;; em <- get user "email" ;;
    ph <- get user "phone" ;;
    some <- andThen (o <- get user "organisations" ;; Normal (truthy o))
                    (o <- get user "organisations" ;;
                     n <- get o "length" ;; Normal (gtZero n)) ;;
    ms <- (if some then
             o <- get user "organisations" ;; mapArray o renderMembership
           else Normal []) ;;
    del <- get user "deleted" ;;
    Normal (Some {|
      firstname := orValue (orValue fn fN) (Str "");
      lastname := orValue (orValue ln lN) (Str "");
      username := orValue un (Str "");
      mail := orValue (orValue ma em) (Str "");
      phone := orValue ph (Str "");
      memberships := ms;
      status := if isDefined del
                then Some (if truthy del then msgDeleted else "Aktiv")
                else None
    |}).

End Render.

End BenutzerDetail.

(* ================================================================= *)
(** ** The vocabulary of the specification

    Predicates and functions written after the words of the specification;
    the theorems compare them with the components. *)

Module Spec.
Import Js Gateway.

(** The three list-response shapes of the Response Normalizer. *)
Definition embeddedShape (response : value) : Prop :=
  exists e l, get response "_embedded" = Normal e /\ get e "users" = Normal (Arr l).

Definition bareShape (response : value) : Prop :=
  exists l, response = Arr l.

Definition pagedShape (response : value) : Prop :=
  exists l, get response "content" = Normal (Arr l).

Definition recognized (response : value) : Prop :=
  embeddedShape response \/ bareShape response \/ pagedShape response.

(** The four fields of the text search. *)
Definition textFields : list string :=
  ["firstname"; "lastname"; "username"; "mail"].

(** A piece of text of the data model: a string, or nothing. *)
Definition textual (v : value) : bool :=
  match v with
  | Undefined | Null | Str _ => true
  | Boolean _ | Number _ | Arr _ | Obj _ => false
  end.

(** The memberships of a user. *)
Definition memberships (user : value) : list value :=
  match get user "organisations" with
  | Normal (Arr orgs) => orgs
  | _ => []
  end.

Definition wellFormedMembership (org : value) : bool :=
  negb (nullish org) && textual (getOpt org "orgName").

(** A user record of the data model: its text fields are strings or
    missing, and its memberships, when it has any, are a sequence of
    membership records. *)
Definition wellFormedUser (user : value) : bool :=
  negb (nullish user)
  && forallb (fun f => textual (getOpt user f)) textFields
  && match getOpt user "organisations" with
     | Undefined | Null => true
     | Arr orgs => forallb wellFormedMembership orgs
     | Boolean _ | Number _ | Str _ | Obj _ => false
     end.

(** Case-insensitive substring. *)
Definition containsIgnoringCase (s term : string) : Prop :=
  exists a b, lower s = a ++ lower term ++ b.

Definition textPredicate (term : string) (user : value) : Prop :=
  term = "" \/
  exists f s, In f textFields /\ get user f = Normal (Str s)
              /\ containsIgnoringCase s term.

Definition organisationPredicate (selection : string) (user : value) : Prop :=
  selection = "" \/
  exists org, In org (memberships user)
              /\ get org "orgName" = Normal (Str selection).

(** What one field contributes to the text search. *)
Definition fieldTest (searchLower : string) (user : value) (f : string) : bool :=
  match getOpt user f with
  | Str s => includes (lower s) searchLower
  | _ => false
  end.

(** The two predicates as tests, and the Filter Engine's [visible]. *)
Definition textTest (term : string) (user : value) : bool :=
  (term =? "") || existsb (fieldTest (lower term) user) textFields.

Definition organisationTest (selection : string) (user : value) : bool :=
  (selection =? "")
  || existsb (fun org => match getOpt org "orgName" with
                         | Str s => s =? selection
                         | _ => false
                         end) (memberships user).

Definition visible (userList : list value) (term selection : string)
  : list value :=
  List.filter (fun u => textTest term u && organisationTest selection u) userList.

(** [s] is the organisation name of some membership of some loaded user. *)
Definition organisationNameIn (userList : list value) (s : string) : Prop :=
  exists u org, In u userList /\ In org (memberships u)
                /\ get org "orgName" = Normal (Str s).

(** The name of a membership, when it has one that is not empty. *)
Definition nameOf (org : value) : list string :=
  match getOpt org "orgName" with
  | Str s => if s =? "" then [] else [s]
  | _ => []
  end.

(** The organisation names of the loaded users, in the order of the
    records, with repetitions. *)
Definition allNames (userList : list value) : list string :=
  flat_map (fun u => flat_map nameOf (memberships u)) userList.

(** Adding a name to the names seen so far. *)
Definition addName (seen : list string) (s : string) : list string :=
  if existsb (String.eqb s) seen then seen else (seen ++ [s])%list.

(** [a] is not after [b] in the order of the code units. *)
Definition notAfter (a b : string) : Prop := String.ltb b a = false.

(** A list of keyed elements in the order of its keys. *)
Definition keySorted (l : list (string * value)) : Prop :=
  Sorted (fun x y => notAfter (fst x) (fst y)) l.

(** Strictly ascending in the order of the code units: sorted and free of
    duplicates. *)
Definition ascending (names : list string) : Prop :=
  StronglySorted (fun a b => String.ltb a b = true) names.

(** The record carries the identity [target]. *)
Definition hasUid (target : value) (user : value) : bool :=
  match get user "userUid" with
  | Normal uid => strictEquals uid target
  | Throw _ => false
  end.

(** The historical field names and their canonical ones. *)
Definition canonicalKey (k : string) : string :=
  if k =? "firstName" then "firstname"
  else if k =? "lastName" then "lastname"
  else if k =? "email" then "mail"
  else k.

(** The record with every historical name replaced by the canonical one. *)
Definition canonical (props : list (string * value)) : list (string * value) :=
  map (fun kv => (canonicalKey (fst kv), snd kv)) props.

(** The record uses the historical names only. *)
Definition historical (props : list (string * value)) : Prop :=
  lookup "firstname" props = None /\ lookup "lastname" props = None
  /\ lookup "mail" props = None.

(** A draft whose four required fields are text. *)
Definition textualDraft (formData : list (string * value)) : Prop :=
  forall f, In f ["username"; "firstname"; "lastname"; "mail"] ->
            textual (prop formData f) = true.

(** The text of a field, empty when the field is missing. *)
Definition textOf (v : value) : string :=
  match v with
  | Str s => s
  | _ => ""
  end.

(** The field is empty after trimming. *)
Definition blank (v : value) : bool := trim (textOf v) =? "".

(** A part of an address: not empty, without white space and without [@]. *)
Definition mailPart (s : string) : Prop :=
  s <> "" /\ forall c, In c (list_ascii_of_string s) -> BenutzerForm.notSpaceAt c = true.

(** The pattern local@domain, the domain with a dot inside. *)
Definition wellFormedMail (s : string) : Prop :=
  exists a b c, s = a ++ "@" ++ b ++ "." ++ c
                /\ mailPart a /\ mailPart b /\ mailPart c.

(** The error messages that a draft deserves, in the order of the checks. *)
Definition expectedErrors (formData : list (string * value))
  : list (string * value) :=
  ((if blank (prop formData "username")
    then [("username", Str BenutzerForm.msgUsername)] else [])
   ++ (if blank (prop formData "firstname")
       then [("firstname", Str BenutzerForm.msgFirstname)] else [])
   ++ (if blank (prop formData "lastname")
       then [("lastname", Str BenutzerForm.msgLastname)] else [])
   ++ (if blank (prop formData "mail")
       then [("mail", Str BenutzerForm.msgMailRequired)]
       else if Regex.matches BenutzerForm.emailPattern
                 (textOf (prop formData "mail"))
            then []
            else [("mail", Str BenutzerForm.msgMailInvalid)]))%list.

(** The changes of the form's fields that lead from one draft to the next. *)
Definition edit (events : list (string * string)) (st : BenutzerForm.state)
  : BenutzerForm.state :=
  fold_left (fun s e => BenutzerForm.handleChange (fst e) (snd e) s) events st.

(** The draft carries an identity. *)
Definition hasIdentity (formData : list (string * value)) : bool :=
  truthy (prop formData "userUid").

(** The changes that the user makes in the dialog, field by field. *)
Definition userEdit (editUser : value) (events : list (string * string))
  (st : BenutzerForm.state) : BenutzerForm.state :=
  fold_left (fun s e => BenutzerForm.change editUser (fst e) (snd e) s) events st.

(** [x > 0] on a number and on [undefined], the two cases the language
    fixes without a conversion. *)
Definition comparesNumbers (gtZero : value -> bool) : Prop :=
  (forall n, gtZero (Number n) = (0 <? n)%Z) /\ gtZero Undefined = false.

(** A membership of the data model with its roles: an object whose roles,
    when it has any, are a sequence of objects. *)
Definition wellFormedRoles (org : value) : bool :=
  match org with
  | Obj props =>
      match prop props "roles" with
      | Undefined | Null => true
      | Arr rs => forallb (fun r => negb (nullish r)) rs
      | Boolean _ | Number _ | Str _ | Obj _ => false
      end
  | _ => false
  end.

(** A record that the form and the detail view can show: an object whose
    memberships, when it has any, are a sequence of such memberships. *)
Definition showable (user : value) : bool :=
  match user with
  | Obj props =>
      match prop props "organisations" with
      | Undefined | Null => true
      | Arr orgs => forallb wellFormedRoles orgs
      | Boolean _ | Number _ | Str _ | Obj _ => false
      end
  | _ => false
  end.

(** The first membership of a record, [null] when it has none. *)
Definition firstMembership (user : value) : value :=
  match getOpt user "organisations" with
  | Arr (org :: _) => org
  | _ => Null
  end.

(** The name of the first role of a membership, when it has a role. *)
Definition firstRole (org : value) : option value :=
  match getOpt org "roles" with
  | Arr (r :: _) => Some (getOpt r "roleName")
  | _ => None
  end.

(** The names of all roles of a membership, when it has a role. *)
Definition roleNames (org : value) : option (list value) :=
  match getOpt org "roles" with
  | Arr (r :: rs) => Some (map (fun x => getOpt x "roleName") (r :: rs))
  | _ => None
  end.

(** What the detail view shows of a membership of the data model. *)
Definition shownMembership (org : value) : BenutzerDetail.membership :=
  {| BenutzerDetail.organisation :=
       orValue (getOpt org "orgName") (Str "Ohne Organisation");
     BenutzerDetail.roles := roleNames org |}.

(** All characters of a string are white space. *)
Definition allSpace (s : string) : bool :=
  forallb isSpace (list_ascii_of_string s).

End Spec.

(* ================================================================= *)
(** ** Sample data

    The three users of the specification's scenario: A has the
    organisation Acme with the role ADMIN, B has Acme without roles, C has
    no organisations. *)

Module Sample.
Import Js Gateway.

Definition userA : value :=
  Obj [("userUid", Str "a"); ("username", Str "anna");
       ("firstname", Str "Anna"); ("lastname", Str "Arndt");
       ("mail", Str "anna@example.org");
       ("organisations",
        Arr [Obj [("orgName", Str "Acme");
                  ("roles", Arr [Obj [("roleName", Str "ADMIN")]])]])].

Definition userB : value :=
  Obj [("userUid", Str "b"); ("username", Str "bob");
       ("firstname", Str "Bob"); ("lastname", Str "Berg");
       ("mail", Str "bob@example.org");
       ("organisations", Arr [Obj [("orgName", Str "Acme"); ("roles", Arr [])]])].

Definition userC : value :=
  Obj [("userUid", Str "c"); ("username", Str "carla");
       ("firstname", Str "Carla"); ("lastname", Str "Conrad");
       ("mail", Str "carla@example.org")].

(** The component after it has loaded the three users. *)
Definition loaded : Benutzerliste.state :=
  snd (Benutzerliste.fetchUsers (Obj []) (Resolved (Arr [userA; userB; userC]))
         Benutzerliste.initial).

(** A record under the historical field names, and the list response that
    delivers it. *)
Definition maxProps : list (string * value) :=
  [("userUid", Str "m"); ("username", Str "mm"); ("firstName", Str "Max");
   ("lastName", Str "Muster"); ("email", Str "mm@example.org")].

(** A draft with the three names filled in. *)
Definition draftWithMail (mail : string) : list (string * value) :=
  [("username", Str "anna"); ("firstname", Str "Anna"); ("lastname", Str "Arndt");
   ("mail", Str mail); ("phone", Str ""); ("organisation", Str "");
   ("role", Str "")].

(** [x > 0] on the values of a [length] property of well-formed data. *)
Definition gtZero (v : value) : bool :=
  match v with
  | Number n => (0 <? n)%Z
  | _ => false
  end.

End Sample.

(* ================================================================= *)
(** * Properties *)

Import Js Gateway Regex Spec.

(** ** Property access *)

Lemma get_not_nullish (v : value) (k : string) :
  nullish v = false -> exists x, get v k = Normal x.
Proof.
  destruct v; simpl; intros H; try discriminate; eauto.
Qed.

Lemma get_getOpt (v : value) (k : string) :
  nullish v = false -> get v k = Normal (getOpt v k).
Proof.
  intros H. unfold getOpt.
  destruct (get_not_nullish v k H) as [x ->]. reflexivity.
Qed.

Lemma truthy_not_nullish (v : value) : truthy v = true -> nullish v = false.
Proof. destruct v; simpl; congruence. Qed.

Lemma textual_cases (v : value) :
  textual v = true -> (exists s, v = Str s) \/ nullish v = true.
Proof.
  destruct v; simpl; intros H; try discriminate; eauto.
Qed.

(** ** The Response Normalizer *)

(** A value that is neither [null] nor [undefined] and has none of the three
    shapes becomes the empty list. *)
Lemma normalize_unrecognized (response : value) :
  nullish response = false ->
  ~ recognized response ->
  Benutzerliste.normalize response = Normal [].
Proof.
  intros Hn Hr.
  unfold Benutzerliste.normalize, Benutzerliste.extractUserList.
  destruct response as [ | | b | n | s | l | props ]; simpl in Hn;
    try discriminate; try reflexivity.
  - exfalso. apply Hr. right. left. exists l. reflexivity.
  - simpl.
    destruct (truthy (prop props "_embedded")) eqn:He; simpl.
    + pose proof (get_getOpt _ "users" (truthy_not_nullish _ He)) as Hu.
      rewrite Hu. simpl.
      destruct (truthy (getOpt (prop props "_embedded") "users")) eqn:Hus; simpl.
      * destruct (getOpt (prop props "_embedded") "users") eqn:Hv;
          try reflexivity.
        exfalso. apply Hr. left.
        exists (prop props "_embedded"), elems. split; [reflexivity | exact Hu].
      * destruct (truthy (prop props "content")) eqn:Hc; simpl;
          [ | reflexivity].
        destruct (prop props "content") eqn:Hv; try reflexivity.
        exfalso. apply Hr. right. right. exists elems. simpl. now rewrite Hv.
    + destruct (truthy (prop props "content")) eqn:Hc; simpl;
        [ | reflexivity].
      destruct (prop props "content") eqn:Hv; try reflexivity.
      exfalso. apply Hr. right. right. exists elems. simpl. now rewrite Hv.
Qed.

(** C3, at the input [null]: the response is none of the three shapes, the
    first property access of the normalizer throws a TypeError instead of
    giving the empty list, and [fetchUsers] reports a load error and keeps
    the list it had. *)
Theorem normalize_null_throws :
  ~ recognized Null
  /\ Benutzerliste.normalize Null = Throw TypeError
  /\ Benutzerliste.normalize Undefined = Throw TypeError
  /\ forall params st,
       let st' := snd (Benutzerliste.fetchUsers params (Resolved Null) st) in
       Benutzerliste.users st' = Benutzerliste.users st
       /\ Benutzerliste.organisations st' = Benutzerliste.organisations st
       /\ Benutzerliste.error st' = Some Benutzerliste.msgLoad.
Proof.
  split; [ | split; [ | split]].
  - intros [(e & l & H & _) | [(l & H) | (l & H)]]; discriminate.
  - reflexivity.
  - reflexivity.
  - intros params st. simpl. repeat split.
Qed.

(** ** Gateway faults *)

(** C9: a fault of the list call sets the load error and leaves the loaded
    list (and the organisation index) as it was; a fault of the delete call
    sets the delete error and leaves the list, the open dialog and its
    target as they were. *)
Theorem gateway_fault_keeps_data (params : value) (err : fault)
  (st : Benutzerliste.state) :
  (let st' := snd (Benutzerliste.fetchUsers params (Rejected err) st) in
   Benutzerliste.error st' = Some Benutzerliste.msgLoad
   /\ Benutzerliste.users st' = Benutzerliste.users st
   /\ Benutzerliste.organisations st' = Benutzerliste.organisations st
   /\ Benutzerliste.loading st' = false)
  /\
  (let st' := snd (Benutzerliste.handleConfirmDelete (Rejected err) st) in
   Benutzerliste.error st' = Some Benutzerliste.msgDelete
   /\ Benutzerliste.users st' = Benutzerliste.users st
   /\ Benutzerliste.deleteDialogOpen st' = Benutzerliste.deleteDialogOpen st
   /\ Benutzerliste.deleteTargetId st' = Benutzerliste.deleteTargetId st).
Proof.
  split; simpl; repeat split.
Qed.

(** ** Strings *)

Lemma prefix_iff (t s : string) :
  String.prefix t s = true <-> exists b, s = t ++ b.
Proof.
  revert s. induction t as [ | c t IH]; intros s.
  - destruct s; simpl; (split; [intros _; eexists | intros _]; reflexivity).
  - destruct s as [ | d s]; simpl.
    + split; [discriminate | intros [b H]; discriminate].
    + destruct (ascii_dec c d) as [-> | Hcd].
      * rewrite IH. split; intros [b H]; exists b; congruence.
      * split; [discriminate | intros [b H]; congruence].
Qed.

(** [includes] finds exactly the substrings. *)
Lemma includes_iff (s t : string) :
  includes s t = true <-> exists a b, s = a ++ t ++ b.
Proof.
  induction s as [ | c s IH]; cbn [includes].
  - rewrite orb_false_r, prefix_iff. split.
    + intros [b H]. exists "", b. exact H.
    + intros (a & b & H). destruct a; [eauto | discriminate].
  - rewrite orb_true_iff, prefix_iff, IH. split.
    + intros [[b H] | (a & b & H)].
      * exists "", b. exact H.
      * exists (String c a), b. simpl. now rewrite H.
    + intros (a & b & H). destruct a as [ | d a]; simpl in H.
      * left. eauto.
      * right. exists a, b. congruence.
Qed.

Lemma lower_empty (s : string) : lower s = "" <-> s = "".
Proof. destruct s; simpl; split; congruence. Qed.

Lemma includes_empty_left (t : string) : t <> "" -> includes "" t = false.
Proof. destruct t; simpl; congruence. Qed.

Lemma truthy_Str (s : string) : truthy (Str s) = true <-> s <> "".
Proof.
  simpl. rewrite negb_true_iff. apply String.eqb_neq.
Qed.

(** ** The text predicate *)

Lemma fieldIncludes_textual (user : value) (f searchLower : string) :
  nullish user = false ->
  textual (getOpt user f) = true ->
  searchLower <> "" ->
  Benutzerliste.fieldIncludes user f searchLower
  = Normal (fieldTest searchLower user f).
Proof.
  intros Hu Ht Hs. unfold Benutzerliste.fieldIncludes, fieldTest.
  rewrite (get_getOpt _ _ Hu). simpl.
  destruct (getOpt user f) as [ | | b | n | s | l | p ]; simpl in *;
    try discriminate; try reflexivity.
  destruct s; [ | reflexivity].
  cbn [lower]. now rewrite includes_empty_left.
Qed.

Lemma matchesName_textual (user : value) (searchLower : string) :
  nullish user = false ->
  (forall f, In f textFields -> textual (getOpt user f) = true) ->
  searchLower <> "" ->
  Benutzerliste.matchesName searchLower user
  = Normal (existsb (fieldTest searchLower user) textFields).
Proof.
  intros Hu Ht Hs. unfold Benutzerliste.matchesName.
  rewrite !fieldIncludes_textual by (auto; apply Ht; simpl; auto).
  simpl.
  destruct (fieldTest searchLower user "firstname"),
           (fieldTest searchLower user "lastname"),
           (fieldTest searchLower user "username"),
           (fieldTest searchLower user "mail"); reflexivity.
Qed.

Lemma lookup_setProp_other (k k' : string) (v : value)
  (props : list (string * value)) :
  k <> k' -> lookup k (setProp k' v props) = lookup k props.
Proof.
  intros Hk. induction props as [ | [k0 v0] props IH]; simpl.
  - apply String.eqb_neq in Hk. now rewrite Hk.
  - destruct (k' =? k0) eqn:E; simpl.
    + apply String.eqb_eq in E. subst k0.
      apply String.eqb_neq in Hk. now rewrite Hk.
    + now rewrite IH.
Qed.

Lemma lookup_setProp_same (k : string) (v : value)
  (props : list (string * value)) :
  lookup k (setProp k v props) = Some v.
Proof.
  induction props as [ | [k0 v0] props IH]; simpl.
  - now rewrite String.eqb_refl.
  - destruct (k =? k0) eqn:E; simpl.
    + now rewrite String.eqb_refl.
    + now rewrite E.
Qed.

Lemma prop_setProp_other (k k' : string) (v : value)
  (props : list (string * value)) :
  k <> k' -> prop (setProp k' v props) k = prop props k.
Proof. intros H. unfold prop. now rewrite lookup_setProp_other. Qed.

(** The text predicate reads the four text fields and nothing else. *)
Lemma matchesName_ignores_organisations (searchLower : string) (v : value)
  (props : list (string * value)) :
  Benutzerliste.matchesName searchLower (Obj (setProp "organisations" v props))
  = Benutzerliste.matchesName searchLower (Obj props).
Proof.
  unfold Benutzerliste.matchesName, Benutzerliste.fieldIncludes. simpl.
  rewrite !prop_setProp_other by discriminate. reflexivity.
Qed.

(** C10: on a record whose four text fields are strings, [null] or missing,
    the text predicate returns without an exception, and a missing field
    counts as no match; so a record without any of the four fields matches
    no search term that is not empty. *)
Theorem matchesName_total_on_missing_fields (user : value) (term : string) :
  nullish user = false ->
  (forall f, In f textFields -> textual (getOpt user f) = true) ->
  term <> "" ->
  Benutzerliste.matchesName (lower term) user
  = Normal (existsb (fun f => match getOpt user f with
                              | Str s => includes (lower s) (lower term)
                              | _ => false
                              end) textFields)
  /\ ((forall f, In f textFields -> nullish (getOpt user f) = true) ->
      Benutzerliste.matchesName (lower term) user = Normal false).
Proof.
  intros Hu Ht Hterm.
  assert (Hl : lower term <> "") by (now rewrite lower_empty).
  pose proof (matchesName_textual user (lower term) Hu Ht Hl) as H.
  split; [exact H | ].
  intros Hn. rewrite H. f_equal.
  apply not_true_is_false. intros Hex.
  apply existsb_exists in Hex. destruct Hex as (f & Hf & Hm).
  unfold fieldTest in Hm. specialize (Hn f Hf).
  destruct (getOpt user f); simpl in Hn; discriminate.
Qed.

(** A record that the table shows under the historical names: its first
    name cell reads "Max", and the search for "max" does not find it. *)
Lemma matchesName_total_on_missing_fields_witness :
  let user := Obj [("userUid", Str "7"); ("firstName", Str "Max");
                   ("lastName", Str "Muster"); ("email", Str "max@muster.de")] in
  Benutzerliste.cellFirstname user = Normal (Str "Max")
  /\ Benutzerliste.matchesName (lower "max") user = Normal false.
Proof.
  intros user. split; [reflexivity | ].
  refine (proj2 (matchesName_total_on_missing_fields user "max" _ _ _) _).
  - reflexivity.
  - intros f [<- | [<- | [<- | [<- | []]]]]; reflexivity.
  - discriminate.
  - intros f [<- | [<- | [<- | [<- | []]]]]; reflexivity.
Defined.

(** ** The organisation predicate *)

Lemma someM_pure {A} (p : A -> completion bool) (q : A -> bool) (l : list A) :
  (forall x, In x l -> p x = Normal (q x)) ->
  someM p l = Normal (existsb q l).
Proof.
  induction l as [ | x l IH]; intros H; simpl; [reflexivity | ].
  rewrite (H x) by (simpl; auto). simpl.
  destruct (q x); [reflexivity | ].
  apply IH. intros y Hy. apply H. simpl. auto.
Qed.

Lemma strictEquals_Str_r (v : value) (s : string) :
  strictEquals v (Str s) = match v with Str x => x =? s | _ => false end.
Proof. destruct v; reflexivity. Qed.

Lemma wellFormedUser_inv (user : value) :
  wellFormedUser user = true ->
  nullish user = false
  /\ (forall f, In f textFields -> textual (getOpt user f) = true)
  /\ ((nullish (getOpt user "organisations") = true /\ memberships user = [])
      \/ exists orgs, getOpt user "organisations" = Arr orgs
                      /\ memberships user = orgs
                      /\ Forall (fun o => wellFormedMembership o = true) orgs).
Proof.
  unfold wellFormedUser. rewrite !andb_true_iff, negb_true_iff.
  intros [[Hn Ht] Ho]. split; [exact Hn | split].
  - intros f Hf. rewrite forallb_forall in Ht. now apply Ht.
  - unfold memberships. rewrite (get_getOpt _ _ Hn).
    destruct (getOpt user "organisations"); try discriminate; auto.
    right. exists elems. repeat split.
    apply Forall_forall. rewrite forallb_forall in Ho. exact Ho.
Qed.

Lemma matchesOrganisation_wellFormed (selection : string) (user : value) :
  wellFormedUser user = true ->
  Benutzerliste.matchesOrganisation selection user
  = Normal (existsb (fun org => match getOpt org "orgName" with
                                | Str s => s =? selection
                                | _ => false
                                end) (memberships user)).
Proof.
  intros Hwf. destruct (wellFormedUser_inv user Hwf) as (Hn & _ & Ho).
  unfold Benutzerliste.matchesOrganisation.
  rewrite (get_getOpt _ _ Hn). simpl.
  destruct Ho as [[Hnull ->] | (orgs & Heq & -> & Hall)].
  - destruct (getOpt user "organisations"); simpl in *;
      try discriminate; reflexivity.
  - rewrite Heq. simpl. apply someM_pure.
    intros org Hin. rewrite Forall_forall in Hall.
    specialize (Hall org Hin). unfold wellFormedMembership in Hall.
    apply andb_true_iff in Hall. destruct Hall as [Hnn _].
    apply negb_true_iff in Hnn.
    rewrite (get_getOpt _ _ Hnn). simpl.
    now rewrite strictEquals_Str_r.
Qed.

(** ** The Filter Engine *)

Lemma filterM_pure {A} (p : A -> completion bool) (q : A -> bool) (l : list A) :
  (forall x, In x l -> p x = Normal (q x)) ->
  filterM p l = Normal (List.filter q l).
Proof.
  induction l as [ | x l IH]; intros H; simpl; [reflexivity | ].
  rewrite (H x) by (simpl; auto). simpl.
  rewrite IH by (intros y Hy; apply H; simpl; auto).
  reflexivity.
Qed.

Lemma filter_filter {A} (p q : A -> bool) (l : list A) :
  List.filter q (List.filter p l) = List.filter (fun x => p x && q x) l.
Proof.
  induction l as [ | x l IH]; simpl; [reflexivity | ].
  destruct (p x); simpl; [destruct (q x) | ]; now rewrite IH.
Qed.

Lemma filter_true {A} (l : list A) : List.filter (fun _ => true) l = l.
Proof. induction l; simpl; congruence. Qed.

Lemma Forall_filter {A} (P : A -> Prop) (q : A -> bool) (l : list A) :
  Forall P l -> Forall P (List.filter q l).
Proof.
  rewrite !Forall_forall. intros H x Hx.
  apply filter_In in Hx. apply H, Hx.
Qed.

(** On records of the data model the two passes of [applyFilters] return
    the Filter Engine's [visible]. *)
Lemma filtered_visible (userList : list value) (term selection : string) :
  Forall (fun u => wellFormedUser u = true) userList ->
  Benutzerliste.filtered userList term selection
  = Normal (visible userList term selection).
Proof.
  intros Hwf. unfold Benutzerliste.filtered, visible.
  assert (H1 : (if truthy (Str term)
                then filterM (Benutzerliste.matchesName (lower term)) userList
                else Normal userList)
               = Normal (List.filter (textTest term) userList)).
  { unfold textTest. destruct (truthy (Str term)) eqn:Et.
    - apply truthy_Str in Et.
      assert (E : (term =? "") = false) by (now apply String.eqb_neq).
      rewrite E. simpl orb. apply filterM_pure.
      intros u Hu. rewrite Forall_forall in Hwf.
      destruct (wellFormedUser_inv u (Hwf u Hu)) as (Hn & Ht & _).
      apply matchesName_textual; auto. now rewrite lower_empty.
    - simpl in Et. apply negb_false_iff in Et. rewrite Et. simpl orb.
      now rewrite filter_true. }
  rewrite H1. cbn [bind].
  assert (H2 : (if truthy (Str selection)
                then filterM (Benutzerliste.matchesOrganisation selection)
                       (List.filter (textTest term) userList)
                else Normal (List.filter (textTest term) userList))
               = Normal (List.filter (organisationTest selection)
                           (List.filter (textTest term) userList))).
  { unfold organisationTest. destruct (truthy (Str selection)) eqn:Es.
    - apply truthy_Str in Es.
      assert (E : (selection =? "") = false) by (now apply String.eqb_neq).
      rewrite E. simpl orb. apply filterM_pure.
      intros u Hu. apply filter_In in Hu. destruct Hu as [Hu _].
      rewrite Forall_forall in Hwf.
      now apply matchesOrganisation_wellFormed, Hwf.
    - simpl in Es. apply negb_false_iff in Es. rewrite Es. simpl orb.
      now rewrite filter_true. }
  rewrite H2. now rewrite filter_filter.
Qed.

Lemma textTest_iff (term : string) (user : value) :
  nullish user = false ->
  textTest term user = true <-> textPredicate term user.
Proof.
  intros Hn. unfold textTest, textPredicate.
  rewrite orb_true_iff, String.eqb_eq, existsb_exists.
  split; (intros [H | H]; [left; exact H | right]).
  - destruct H as (f & Hf & Hm). unfold fieldTest in Hm.
    destruct (getOpt user f) eqn:E; try discriminate.
    exists f, s. split; [exact Hf | split].
    + rewrite (get_getOpt _ _ Hn). now rewrite E.
    + now apply includes_iff.
  - destruct H as (f & s & Hf & Hg & Hc).
    exists f. split; [exact Hf | ]. unfold fieldTest, getOpt.
    rewrite Hg. now apply includes_iff.
Qed.

Lemma organisationTest_iff (selection : string) (user : value) :
  Forall (fun o => nullish o = false) (memberships user) ->
  organisationTest selection user = true <-> organisationPredicate selection user.
Proof.
  intros Hm. unfold organisationTest, organisationPredicate.
  rewrite orb_true_iff, String.eqb_eq, existsb_exists.
  rewrite Forall_forall in Hm.
  split; (intros [H | H]; [left; exact H | right]).
  - destruct H as (org & Hin & Ht). exists org. split; [exact Hin | ].
    rewrite (get_getOpt _ _ (Hm org Hin)).
    destruct (getOpt org "orgName"); try discriminate.
    apply String.eqb_eq in Ht. now subst.
  - destruct H as (org & Hin & Hg). exists org. split; [exact Hin | ].
    unfold getOpt. rewrite Hg. apply String.eqb_refl.
Qed.

Lemma wellFormed_memberships (user : value) :
  wellFormedUser user = true ->
  Forall (fun o => nullish o = false) (memberships user).
Proof.
  intros Hwf. destruct (wellFormedUser_inv user Hwf) as (_ & _ & Ho).
  destruct Ho as [[_ ->] | (orgs & _ & -> & Hall)]; [constructor | ].
  eapply Forall_impl; [ | exact Hall].
  intros o Ho. unfold wellFormedMembership in Ho.
  apply andb_true_iff in Ho. now apply negb_true_iff.
Qed.

Lemma applyFilters_visible (reply : outcome) (term selection : string)
  (st : Benutzerliste.state) :
  Forall (fun u => wellFormedUser u = true) (Benutzerliste.users st) ->
  term <> "" \/ selection <> "" ->
  Benutzerliste.applyFilters reply term selection st
  = Normal ([], Benutzerliste.setUsers
                  (visible (Benutzerliste.users st) term selection) st).
Proof.
  intros Hwf Hne. unfold Benutzerliste.applyFilters.
  assert (E : negb (truthy (Str term)) && negb (truthy (Str selection)) = false).
  { apply andb_false_iff.
    destruct Hne as [H | H]; [left | right];
      apply negb_false_iff; now apply truthy_Str. }
  rewrite E. now rewrite filtered_visible.
Qed.

(** C5: with a term or a selection that is not empty, [applyFilters] makes
    no gateway call and stores the list of exactly those records, in their
    order, that satisfy the text predicate and the organisation predicate;
    and the text predicate does not depend on the organisations of a
    record. *)
Theorem applyFilters_both_predicates (reply : outcome)
  (term selection : string) (st : Benutzerliste.state) :
  Forall (fun u => wellFormedUser u = true) (Benutzerliste.users st) ->
  term <> "" \/ selection <> "" ->
  Benutzerliste.applyFilters reply term selection st
  = Normal ([], Benutzerliste.setUsers
                  (visible (Benutzerliste.users st) term selection) st)
  /\ (forall u, In u (visible (Benutzerliste.users st) term selection)
                <-> In u (Benutzerliste.users st)
                    /\ textPredicate term u
                    /\ organisationPredicate selection u)
  /\ (forall searchLower v props,
        Benutzerliste.matchesName searchLower
          (Obj (setProp "organisations" v props))
        = Benutzerliste.matchesName searchLower (Obj props)).
Proof.
  intros Hwf Hne. split; [ | split].
  - now apply applyFilters_visible.
  - intros u. unfold visible. rewrite filter_In, andb_true_iff.
    rewrite Forall_forall in Hwf.
    split.
    + intros (Hin & Ht & Ho). split; [exact Hin | ].
      pose proof (Hwf u Hin) as Hu.
      destruct (wellFormedUser_inv u Hu) as (Hn & _).
      split; [now apply textTest_iff | ].
      apply organisationTest_iff; [now apply wellFormed_memberships | exact Ho].
    + intros (Hin & Ht & Ho). split; [exact Hin | ].
      pose proof (Hwf u Hin) as Hu.
      destruct (wellFormedUser_inv u Hu) as (Hn & _).
      split; [now apply textTest_iff | ].
      apply organisationTest_iff; [now apply wellFormed_memberships | exact Ho].
  - apply matchesName_ignores_organisations.
Qed.

Lemma applyFilters_both_predicates_witness :
  Benutzerliste.applyFilters (Resolved Null) "" "Acme" Sample.loaded
  = Normal ([], Benutzerliste.setUsers [Sample.userA; Sample.userB] Sample.loaded).
Proof.
  apply (applyFilters_both_predicates (Resolved Null) "" "Acme" Sample.loaded).
  - repeat constructor.
  - right. discriminate.
Defined.

(** ** Successive filters *)

(** C1 fails: after the search for "anna", the search for "bob" runs over
    the one record that the first search kept and finds nothing, while
    "bob" over the loaded collection finds user B. *)
Lemma applyFilters_compounds :
  exists st1 st2,
    Benutzerliste.applyFilters (Resolved Null) "anna" "" Sample.loaded
    = Normal ([], st1)
    /\ Benutzerliste.applyFilters (Resolved Null) "bob" "" st1
       = Normal ([], st2)
    /\ Benutzerliste.users st2 = []
    /\ Benutzerliste.filtered (Benutzerliste.users Sample.loaded) "bob" ""
       = Normal [Sample.userB].
Proof.
  eexists. eexists. repeat split.
Qed.

(** The same through the search field: the term "anna" is typed and then
    replaced by "bob". *)
Lemma handleNameSearch_compounds :
  exists st1 st2,
    Benutzerliste.handleNameSearch (Resolved Null) "anna" Sample.loaded
    = Normal ([], st1)
    /\ Benutzerliste.handleNameSearch (Resolved Null) "bob" st1
       = Normal ([], st2)
    /\ Benutzerliste.searchTerm st2 = "bob"
    /\ Benutzerliste.organisationFilter st2 = ""
    /\ Benutzerliste.users st2 = [].
Proof.
  eexists. eexists. repeat split.
Qed.

(** C1 as amended: every call of [applyFilters] with a term or a selection
    that is not empty filters the list that the component holds at that
    moment.  After two such calls the list holds the records of the
    collection that pass the first filter and the second. *)
Theorem applyFilters_filters_current_list (reply : outcome)
  (term1 selection1 term2 selection2 : string) (st : Benutzerliste.state) :
  Forall (fun u => wellFormedUser u = true) (Benutzerliste.users st) ->
  term1 <> "" \/ selection1 <> "" ->
  term2 <> "" \/ selection2 <> "" ->
  exists st1 st2,
    Benutzerliste.applyFilters reply term1 selection1 st = Normal ([], st1)
    /\ Benutzerliste.applyFilters reply term2 selection2 st1 = Normal ([], st2)
    /\ Benutzerliste.users st1 = visible (Benutzerliste.users st) term1 selection1
    /\ Benutzerliste.users st2
       = visible (visible (Benutzerliste.users st) term1 selection1)
           term2 selection2
    /\ Benutzerliste.users st2
       = List.filter (fun u => (textTest term1 u && organisationTest selection1 u)
                               && (textTest term2 u && organisationTest selection2 u))
           (Benutzerliste.users st).
Proof.
  intros Hwf H1 H2.
  pose proof (applyFilters_visible reply term1 selection1 st Hwf H1) as E1.
  set (st1 := Benutzerliste.setUsers
                (visible (Benutzerliste.users st) term1 selection1) st) in *.
  assert (Hwf1 : Forall (fun u => wellFormedUser u = true) (Benutzerliste.users st1)).
  { simpl. unfold visible. now apply Forall_filter. }
  pose proof (applyFilters_visible reply term2 selection2 st1 Hwf1 H2) as E2.
  exists st1. eexists. split; [exact E1 | split; [exact E2 | ]].
  simpl. repeat split. unfold visible. apply filter_filter.
Qed.

Lemma applyFilters_filters_current_list_witness :
  exists st1 st2,
    Benutzerliste.applyFilters (Resolved Null) "" "Acme" Sample.loaded
    = Normal ([], st1)
    /\ Benutzerliste.applyFilters (Resolved Null) "bob" "" st1 = Normal ([], st2)
    /\ Benutzerliste.users st2 = [Sample.userB].
Proof.
  destruct (applyFilters_filters_current_list (Resolved Null) "" "Acme" "bob" ""
              Sample.loaded)
    as (st1 & st2 & E1 & E2 & _ & _ & E3).
  - repeat constructor.
  - right. discriminate.
  - left. discriminate.
  - exists st1, st2. split; [exact E1 | split; [exact E2 | ]].
    rewrite E3. reflexivity.
Defined.

(** ** Delete *)

Lemma withoutTarget_filter (userList : list value) (target : value) :
  Forall (fun u => nullish u = false) userList ->
  Benutzerliste.withoutTarget userList target
  = Normal (List.filter (fun u => negb (hasUid target u)) userList).
Proof.
  intros H. unfold Benutzerliste.withoutTarget. apply filterM_pure.
  intros u Hu. rewrite Forall_forall in H. unfold hasUid.
  now rewrite (get_getOpt _ _ (H u Hu)).
Qed.

Lemma hasUid_not_nullish (target user : value) :
  hasUid target user = true -> nullish user = false.
Proof. destruct user; unfold hasUid; simpl; congruence. Qed.

(** C8: when the delete call succeeds and the record with the target
    identity stands between [before] and [after], none of which has that
    identity, the list becomes [before ++ after], the dialog is closed, its
    target and the error are cleared, and the delete call is the only
    gateway call. *)
Theorem handleConfirmDelete_removes_target (data : value)
  (st : Benutzerliste.state) (before after : list value) (user : value) :
  Benutzerliste.users st = (before ++ user :: after)%list ->
  hasUid (Benutzerliste.deleteTargetId st) user = true ->
  Forall (fun u => nullish u = false
                   /\ hasUid (Benutzerliste.deleteTargetId st) u = false)
    (before ++ after)%list ->
  Benutzerliste.handleConfirmDelete (Resolved data) st
  = ([DeleteUser (Benutzerliste.deleteTargetId st)],
     Benutzerliste.setError None
       (Benutzerliste.handleCloseDeleteDialog
          (Benutzerliste.setUsers (before ++ after)%list st)))
  /\ (let st' := snd (Benutzerliste.handleConfirmDelete (Resolved data) st) in
      Benutzerliste.users st' = (before ++ after)%list
      /\ Benutzerliste.deleteDialogOpen st' = false
      /\ Benutzerliste.deleteTargetId st' = Null
      /\ Benutzerliste.error st' = None
      /\ Benutzerliste.organisations st' = Benutzerliste.organisations st).
Proof.
  intros Hus Hu Hrest.
  assert (E : Benutzerliste.withoutTarget (Benutzerliste.users st)
                (Benutzerliste.deleteTargetId st)
              = Normal (before ++ after)%list).
  { rewrite withoutTarget_filter.
    - f_equal. rewrite Hus.
      apply Forall_app in Hrest. destruct Hrest as [Hb Ha].
      rewrite filter_app. simpl. rewrite Hu. simpl. f_equal.
      + clear -Hb. induction Hb as [ | x l [_ Hx] _ IH]; simpl;
          [reflexivity | ]. rewrite Hx. simpl. now rewrite IH.
      + clear -Ha. induction Ha as [ | x l [_ Hx] _ IH]; simpl;
          [reflexivity | ]. rewrite Hx. simpl. now rewrite IH.
    - rewrite Hus. apply Forall_app in Hrest. destruct Hrest as [Hb Ha].
      apply Forall_app. split.
      + eapply Forall_impl; [ | exact Hb]. now intros x [Hx _].
      + constructor; [now apply hasUid_not_nullish in Hu | ].
        eapply Forall_impl; [ | exact Ha]. now intros x [Hx _]. }
  unfold Benutzerliste.handleConfirmDelete. rewrite E. simpl.
  repeat split.
Qed.

Lemma handleConfirmDelete_removes_target_witness :
  Benutzerliste.users
    (snd (Benutzerliste.handleConfirmDelete (Resolved Null)
            (Benutzerliste.handleOpenDeleteDialog (Str "b") Sample.loaded)))
  = [Sample.userA; Sample.userC].
Proof.
  refine (proj1 (proj2 (handleConfirmDelete_removes_target Null
            (Benutzerliste.handleOpenDeleteDialog (Str "b") Sample.loaded)
            [Sample.userA] [Sample.userC] Sample.userB _ _ _))).
  - reflexivity.
  - reflexivity.
  - repeat constructor.
Defined.

(** ** Historical field names *)

(** The list call stores a bare sequence as it arrives. *)
Lemma fetchUsers_stores_sequence (params : value) (l : list value)
  (st : Benutzerliste.state) :
  Benutzerliste.users (snd (Benutzerliste.fetchUsers params (Resolved (Arr l)) st))
  = l.
Proof.
  unfold Benutzerliste.fetchUsers.
  change (Benutzerliste.extractUserList (Arr l)) with (Normal (Arr l)).
  cbn [Benutzerliste.asArray isArray elements andb].
  destruct (0 <? List.length l)%nat; [ | reflexivity].
  destruct (Benutzerliste.organisationIndex l); reflexivity.
Qed.

(** C2 fails: the same record arrives once under the historical names and
    once under the canonical ones; the search for "max" finds it only in
    the second case. *)
Lemma historical_names_not_searched :
  let received := Arr [Obj Sample.maxProps] in
  let renamed := Arr [Obj (canonical Sample.maxProps)] in
  let search response :=
    Benutzerliste.applyFilters (Resolved Null) "max" ""
      (snd (Benutzerliste.fetchUsers (Obj []) (Resolved response)
              Benutzerliste.initial)) in
  (exists st, search received = Normal ([], st) /\ Benutzerliste.users st = [])
  /\ (exists st, search renamed = Normal ([], st)
                 /\ Benutzerliste.users st = [Obj (canonical Sample.maxProps)]).
Proof.
  split; eexists; split; reflexivity.
Qed.

Ltac split_key k :=
  unfold canonicalKey;
  let E1 := fresh "E" in
  let E2 := fresh "E" in
  let E3 := fresh "E" in
  destruct (k =? "firstName") eqn:E1;
  [ apply String.eqb_eq in E1; subst k
  | destruct (k =? "lastName") eqn:E2;
    [ apply String.eqb_eq in E2; subst k
    | destruct (k =? "email") eqn:E3;
      [ apply String.eqb_eq in E3; subst k | ] ] ].

(** A property that is not one of the six names is where it was. *)
Lemma lookup_canonical_other (k : string) (props : list (string * value)) :
  ~ In k ["firstname"; "lastname"; "mail"; "firstName"; "lastName"; "email"] ->
  lookup k (canonical props) = lookup k props.
Proof.
  intros Hk. induction props as [ | [k0 v0] props IH]; [reflexivity | ].
  cbn [canonical map lookup fst snd]. fold (canonical props). rewrite IH.
  assert (E : (k =? canonicalKey k0) = (k =? k0)); [ | now rewrite E].
  split_key k0; try reflexivity;
    (transitivity false; [ | symmetry ]); apply String.eqb_neq;
    intros ->; apply Hk; simpl; auto 10.
Qed.

(** No property keeps a historical name. *)
Lemma lookup_canonical_historical (k : string) (props : list (string * value)) :
  In k ["firstName"; "lastName"; "email"] ->
  lookup k (canonical props) = None.
Proof.
  intros Hk. induction props as [ | [k0 v0] props IH]; [reflexivity | ].
  cbn [canonical map lookup fst snd]. fold (canonical props). rewrite IH.
  assert (E : (k =? canonicalKey k0) = false); [ | now rewrite E].
  destruct Hk as [<- | [<- | [<- | []]]]; split_key k0; try reflexivity;
    rewrite String.eqb_sym; assumption.
Qed.

(** The canonical name holds what the historical name held. *)
Lemma lookup_canonical_renamed (c h : string) (props : list (string * value)) :
  In (c, h) [("firstname", "firstName"); ("lastname", "lastName"); ("mail", "email")] ->
  lookup c props = None ->
  lookup c (canonical props) = lookup h props.
Proof.
  intros Hk. induction props as [ | [k0 v0] props IH]; [reflexivity | ].
  cbn [canonical map lookup fst snd]. fold (canonical props).
  destruct (c =? k0) eqn:Ec; [discriminate | ].
  intros Hnone. rewrite (IH Hnone).
  assert (E : (c =? canonicalKey k0) = (h =? k0)); [ | now rewrite E].
  destruct Hk as [H | [H | [H | []]]]; inversion H; subst c h;
    split_key k0; try reflexivity;
    rewrite Ec; symmetry; rewrite String.eqb_sym; assumption.
Qed.

Lemma orValue_undefined_r (x d : value) :
  orValue (orValue x Undefined) d = orValue x d.
Proof. unfold orValue. destruct (truthy x) eqn:E; simpl; now rewrite ?E. Qed.

Lemma orValue_undefined_l (x d : value) :
  orValue (orValue Undefined x) d = orValue x d.
Proof. reflexivity. Qed.

Lemma prop_canonical (props : list (string * value)) :
  historical props ->
  (forall k, ~ In k ["firstname"; "lastname"; "mail";
                     "firstName"; "lastName"; "email"] ->
             prop (canonical props) k = prop props k)
  /\ (forall k, In k ["firstName"; "lastName"; "email"] ->
                prop (canonical props) k = Undefined)
  /\ (forall k, In k ["firstname"; "lastname"; "mail"] -> prop props k = Undefined)
  /\ prop (canonical props) "firstname" = prop props "firstName"
  /\ prop (canonical props) "lastname" = prop props "lastName"
  /\ prop (canonical props) "mail" = prop props "email".
Proof.
  intros (H1 & H2 & H3). unfold prop. repeat split.
  - intros k Hk. now rewrite lookup_canonical_other.
  - intros k Hk. now rewrite lookup_canonical_historical.
  - intros k [<- | [<- | [<- | []]]]; [now rewrite H1 | now rewrite H2 | now rewrite H3].
  - rewrite (lookup_canonical_renamed "firstname" "firstName"); simpl; auto.
  - rewrite (lookup_canonical_renamed "lastname" "lastName"); simpl; auto.
  - rewrite (lookup_canonical_renamed "mail" "email"); simpl; auto.
Qed.

(** C2 as amended: the list call stores a record as it arrives, under the
    names it came with.  The historical names are read where a record is
    shown: the name and e-mail cells of its table row and the draft that the
    form loads from it are the same as for the record under the canonical
    names. *)
Theorem historical_names_read_at_display (gtZero : value -> bool)
  (props : list (string * value)) :
  historical props ->
  (forall params rest st,
     Benutzerliste.users
       (snd (Benutzerliste.fetchUsers params (Resolved (Arr (Obj props :: rest))) st))
     = Obj props :: rest)
  /\ Benutzerliste.cellUsername (Obj props)
     = Benutzerliste.cellUsername (Obj (canonical props))
  /\ Benutzerliste.cellFirstname (Obj props)
     = Benutzerliste.cellFirstname (Obj (canonical props))
  /\ Benutzerliste.cellLastname (Obj props)
     = Benutzerliste.cellLastname (Obj (canonical props))
  /\ Benutzerliste.cellMail (Obj props)
     = Benutzerliste.cellMail (Obj (canonical props))
  /\ (forall st, BenutzerForm.load gtZero (Obj props) st
                 = BenutzerForm.load gtZero (Obj (canonical props)) st).
Proof.
  intros Hh.
  destruct (prop_canonical props Hh) as (Ho & Hv & Hc & Hf & Hl & Hm).
  assert (Hirr : forall k, In k ["username"; "userUid"; "phone"; "organisations"] ->
                           prop (canonical props) k = prop props k).
  { intros k Hk. apply Ho. intros Hin.
    destruct Hk as [<- | [<- | [<- | [<- | []]]]];
      repeat (destruct Hin as [Hin | Hin]; [discriminate | ]); exact Hin. }
  pose proof (Hirr "username" ltac:(simpl; auto)) as Iu.
  pose proof (Hirr "userUid" ltac:(simpl; auto)) as Ii.
  pose proof (Hirr "phone" ltac:(simpl; auto)) as Ip.
  pose proof (Hirr "organisations" ltac:(simpl; auto)) as Io.
  pose proof (Hv "firstName" ltac:(simpl; auto)) as Vf.
  pose proof (Hv "lastName" ltac:(simpl; auto)) as Vl.
  pose proof (Hv "email" ltac:(simpl; auto)) as Vm.
  pose proof (Hc "firstname" ltac:(simpl; auto)) as Cf.
  pose proof (Hc "lastname" ltac:(simpl; auto)) as Cl.
  pose proof (Hc "mail" ltac:(simpl; auto)) as Cm.
  split; [intros; apply fetchUsers_stores_sequence | ].
  unfold Benutzerliste.cellUsername, Benutzerliste.cellFirstname,
    Benutzerliste.cellLastname, Benutzerliste.cellMail.
  cbn [get bind].
  rewrite Hf, Hl, Hm, Vf, Vl, Vm, Cf, Cl, Cm, Iu.
  rewrite !orValue_undefined_r, !orValue_undefined_l.
  repeat (split; [reflexivity | ]).
  intros st. unfold BenutzerForm.load, BenutzerForm.firstOrgOf.
  cbn [get bind truthy].
  rewrite Hf, Hl, Hm, Vf, Vl, Vm, Cf, Cl, Cm, Iu, Ii, Ip, Io.
  rewrite !orValue_undefined_r, !orValue_undefined_l.
  reflexivity.
Qed.

Lemma historical_names_read_at_display_witness :
  Benutzerliste.cellFirstname (Obj Sample.maxProps) = Normal (Str "Max")
  /\ Benutzerliste.cellMail (Obj Sample.maxProps) = Normal (Str "mm@example.org")
  /\ BenutzerForm.load Sample.gtZero (Obj Sample.maxProps) BenutzerForm.initial
     = BenutzerForm.load Sample.gtZero (Obj (canonical Sample.maxProps))
         BenutzerForm.initial.
Proof.
  destruct (historical_names_read_at_display Sample.gtZero Sample.maxProps)
    as (_ & _ & Hf & _ & Hm & Hload).
  - repeat split.
  - split; [rewrite Hf; reflexivity | split; [rewrite Hm; reflexivity | apply Hload]].
Defined.

(** ** The matcher of regular expressions *)

Lemma append_empty (s1 s2 : string) : s1 ++ s2 = "" -> s1 = "" /\ s2 = "".
Proof. destruct s1; simpl; [auto | discriminate]. Qed.

Lemma nullable_Matches (r : regex) : nullable r = true -> Matches r "".
Proof.
  induction r; simpl; intros H; try discriminate.
  - constructor.
  - apply andb_true_iff in H. destruct H as [H1 H2].
    change "" with ("" ++ ""). constructor; auto.
  - apply orb_true_iff in H. destruct H; [apply MAltL | apply MAltR]; auto.
  - constructor.
Qed.

Lemma Matches_nullable (r : regex) (s : string) :
  Matches r s -> s = "" -> nullable r = true.
Proof.
  induction 1; intros E; simpl; try reflexivity; try discriminate.
  - apply append_empty in E. destruct E. now rewrite IHMatches1, IHMatches2.
  - now rewrite IHMatches.
  - rewrite IHMatches by assumption. apply orb_true_r.
Qed.

Lemma deriv_Matches (c : ascii) (r : regex) :
  forall s, Matches (deriv c r) s -> Matches r (String c s).
Proof.
  induction r; simpl; intros s H.
  - inversion H.
  - inversion H.
  - destruct (p c) eqn:E; inversion H; subst. now constructor.
  - assert (Hseq : forall s, Matches (Seq (deriv c r1) r2) s ->
                             Matches (Seq r1 r2) (String c s)).
    { intros s0 H0. inversion H0; subst.
      change (String c (s1 ++ s2)) with (String c s1 ++ s2).
      constructor; auto. }
    destruct (nullable r1) eqn:E; [ | now apply Hseq].
    inversion H; subst; [now apply Hseq | ].
    change (String c s) with ("" ++ String c s).
    constructor; [now apply nullable_Matches | auto].
  - inversion H; subst; [apply MAltL | apply MAltR]; auto.
  - inversion H; subst.
    change (String c (s1 ++ s2)) with (String c s1 ++ s2).
    constructor; auto.
Qed.

Lemma Matches_deriv (r : regex) (w : string) :
  Matches r w -> forall a t, w = String a t -> Matches (deriv a r) t.
Proof.
  induction 1; intros a t E; simpl.
  - discriminate.
  - inversion E; subst. rewrite H. constructor.
  - destruct s1 as [ | d s1]; simpl in E.
    + subst s2. rewrite (Matches_nullable r1 "" H eq_refl).
      apply MAltR. now apply IHMatches2.
    + inversion E; subst.
      assert (Hs : Matches (Seq (deriv a r1) r2) (s1 ++ s2))
        by (constructor; auto).
      destruct (nullable r1); [now apply MAltL | exact Hs].
  - apply MAltL. auto.
  - apply MAltR. auto.
  - discriminate.
  - destruct s1 as [ | d s1]; simpl in E.
    + subst s2. now apply IHMatches2.
    + inversion E; subst. constructor; auto.
Qed.

(** The matcher decides the words of the expression. *)
Lemma matches_iff (r : regex) (s : string) :
  matches r s = true <-> Matches r s.
Proof.
  revert r. induction s as [ | c s IH]; intros r; simpl.
  - split; [apply nullable_Matches | intros H; now apply (Matches_nullable r "")].
  - rewrite IH. split; [apply deriv_Matches | ].
    intros H. now apply (Matches_deriv r (String c s)).
Qed.

(** ** The e-mail pattern *)

Lemma Matches_Star_Class (p : ascii -> bool) (s : string) :
  Matches (Star (Class p)) s
  <-> forall c, In c (list_ascii_of_string s) -> p c = true.
Proof.
  split.
  - intros H. remember (Star (Class p)) as r eqn:Er.
    induction H; try discriminate.
    + intros c [].
    + inversion Er; subst. inversion H; subst. simpl.
      intros d [<- | Hd]; auto.
  - induction s as [ | c s IH]; simpl; intros H.
    + constructor.
    + change (String c s) with (String c "" ++ s).
      constructor; [constructor | ]; auto.
Qed.

Lemma Matches_Plus_Class (p : ascii -> bool) (s : string) :
  Matches (Plus (Class p)) s
  <-> s <> "" /\ forall c, In c (list_ascii_of_string s) -> p c = true.
Proof.
  unfold Plus. split.
  - intros H. inversion H as [ | | ? ? s1 s2 H1 H2 | | | | ]; subst.
    inversion H1 as [ | ? c Hp | | | | | ]; subst. simpl.
    split; [discriminate | ].
    pose proof (proj1 (Matches_Star_Class _ _) H2) as Hall.
    intros d [<- | Hd]; auto.
  - intros [Hne Hall]. destruct s as [ | c s]; [congruence | ].
    change (String c s) with (String c "" ++ s).
    constructor.
    + constructor. apply Hall. simpl. auto.
    + apply Matches_Star_Class. intros d Hd. apply Hall. simpl. auto.
Qed.

Lemma Matches_Lit (c : ascii) (s : string) :
  Matches (Lit c) s <-> s = String c "".
Proof.
  unfold Lit. split.
  - intros H. inversion H; subst. apply Ascii.eqb_eq in H1. now subst.
  - intros ->. constructor. apply Ascii.eqb_refl.
Qed.

(** The pattern of the form accepts the addresses local@domain. *)
Lemma emailPattern_iff (s : string) :
  matches BenutzerForm.emailPattern s = true <-> wellFormedMail s.
Proof.
  rewrite matches_iff. unfold BenutzerForm.emailPattern, wellFormedMail.
  split.
  - intros H.
    inversion H as [ | | ? ? a r1 Ha H1 | | | | ]; subst.
    inversion H1 as [ | | ? ? at_ r2 Hat H2 | | | | ]; subst.
    inversion H2 as [ | | ? ? b r3 Hb H3 | | | | ]; subst.
    inversion H3 as [ | | ? ? dot c Hdot Hc | | | | ]; subst.
    apply Matches_Lit in Hat, Hdot. subst.
    pose proof (proj1 (Matches_Plus_Class _ _) Ha) as Pa.
    pose proof (proj1 (Matches_Plus_Class _ _) Hb) as Pb.
    pose proof (proj1 (Matches_Plus_Class _ _) Hc) as Pc.
    exists a, b, c. repeat split; try apply Pa; try apply Pb; try apply Pc.
  - intros (a & b & c & -> & Ha & Hb & Hc).
    repeat constructor; try (apply Matches_Plus_Class; assumption);
      apply Ascii.eqb_refl.
Qed.

Lemma wellFormedMail_not_blank (s : string) :
  wellFormedMail s -> trim s <> "".
Proof.
  intros (a & b & c & -> & [Hne Hall] & _).
  destruct a as [ | ch a]; [congruence | ].
  assert (Hs : isSpace ch = false).
  { specialize (Hall ch (or_introl eq_refl)).
    unfold BenutzerForm.notSpaceAt in Hall.
    apply negb_true_iff, orb_false_iff in Hall. apply Hall. }
  unfold trim. cbn [append trimStart]. rewrite Hs. cbn [trimEnd].
  rewrite Hs. destruct (trimEnd _); discriminate.
Qed.

(** ** Validation of the form *)

Lemma isBlank_textual (v : value) :
  textual v = true -> BenutzerForm.isBlank v = Normal (blank v).
Proof.
  destruct v as [ | | b | n | s | l | p ]; simpl; intros H;
    try discriminate; try reflexivity.
  destruct s; reflexivity.
Qed.

(** On a draft of text fields the validation returns, with the messages the
    draft deserves. *)
Lemma validateForm_textual (formData : list (string * value)) :
  textualDraft formData ->
  BenutzerForm.validateForm formData
  = Normal (expectedErrors formData,
            (List.length (expectedErrors formData) =? 0)%nat).
Proof.
  intros Ht. unfold BenutzerForm.validateForm.
  rewrite !isBlank_textual by (apply Ht; simpl; auto).
  cbn [bind]. unfold expectedErrors.
  destruct (blank (prop formData "username")),
           (blank (prop formData "firstname")),
           (blank (prop formData "lastname"));
    destruct (blank (prop formData "mail")) eqn:Em; try reflexivity;
    pose proof (Ht "mail" ltac:(simpl; auto)) as Hm;
    destruct (prop formData "mail") as [ | | b | n | s | l | p ];
    try discriminate;
    unfold test; cbn [toString bind textOf];
    destruct (matches BenutzerForm.emailPattern s); reflexivity.
Qed.

Lemma expectedErrors_required (formData : list (string * value)) (f : string) :
  In f ["username"; "firstname"; "lastname"] ->
  lookup f (expectedErrors formData) <> None <-> blank (prop formData f) = true.
Proof.
  unfold expectedErrors.
  intros [<- | [<- | [<- | []]]];
    destruct (blank (prop formData "username")),
             (blank (prop formData "firstname")),
             (blank (prop formData "lastname")),
             (blank (prop formData "mail")),
             (matches BenutzerForm.emailPattern (textOf (prop formData "mail")));
    cbn; split; congruence.
Qed.

Lemma expectedErrors_mail (formData : list (string * value)) :
  lookup "mail" (expectedErrors formData) <> None
  <-> blank (prop formData "mail") = true
      \/ matches BenutzerForm.emailPattern (textOf (prop formData "mail")) = false.
Proof.
  unfold expectedErrors.
  destruct (blank (prop formData "username")),
           (blank (prop formData "firstname")),
           (blank (prop formData "lastname")),
           (blank (prop formData "mail")),
           (matches BenutzerForm.emailPattern (textOf (prop formData "mail")));
    cbn; split; try congruence; auto; intros [H | H]; congruence.
Qed.

Lemma expectedErrors_optional (formData : list (string * value)) (f : string) :
  In f ["phone"; "organisation"; "role"] ->
  lookup f (expectedErrors formData) = None.
Proof.
  unfold expectedErrors.
  intros [<- | [<- | [<- | []]]];
    destruct (blank (prop formData "username")),
             (blank (prop formData "firstname")),
             (blank (prop formData "lastname")),
             (blank (prop formData "mail")),
             (matches BenutzerForm.emailPattern (textOf (prop formData "mail")));
    reflexivity.
Qed.

Lemma length_zero_iff {A} (l : list A) :
  (List.length l =? 0)%nat = match l with [] => true | _ => false end.
Proof. destruct l; reflexivity. Qed.

(** C7: the validation of a draft of text fields reports an error for each
    of username, first name and last name that is empty after trimming and
    for an e-mail that is empty or is no address local@domain, and none for
    phone, organisation and role; the draft is valid when nothing is
    reported.  The empty draft gets the four errors, the address a@b is
    refused and a@b.com is accepted. *)
Theorem validateForm_required_fields (formData : list (string * value)) :
  textualDraft formData ->
  (exists errs,
     BenutzerForm.validateForm formData
     = Normal (errs, match errs with [] => true | _ => false end)
     /\ (forall f, In f ["username"; "firstname"; "lastname"] ->
                   (lookup f errs <> None
                    <-> trim (textOf (prop formData f)) = ""))
     /\ (lookup "mail" errs <> None
         <-> textOf (prop formData "mail") = ""
             \/ ~ wellFormedMail (textOf (prop formData "mail")))
     /\ (forall f, In f ["phone"; "organisation"; "role"] -> lookup f errs = None))
  /\ BenutzerForm.validateForm BenutzerForm.emptyForm
     = Normal ([("username", Str BenutzerForm.msgUsername);
                ("firstname", Str BenutzerForm.msgFirstname);
                ("lastname", Str BenutzerForm.msgLastname);
                ("mail", Str BenutzerForm.msgMailRequired)], false)
  /\ BenutzerForm.validateForm (Sample.draftWithMail "a@b")
     = Normal ([("mail", Str BenutzerForm.msgMailInvalid)], false)
  /\ BenutzerForm.validateForm (Sample.draftWithMail "a@b.com")
     = Normal ([], true).
Proof.
  intros Ht. split; [ | repeat split].
  exists (expectedErrors formData).
  rewrite validateForm_textual by assumption.
  rewrite length_zero_iff. split; [reflexivity | split; [ | split]].
  - intros f Hf. rewrite expectedErrors_required by assumption.
    unfold blank. apply String.eqb_eq.
  - rewrite expectedErrors_mail. unfold blank. rewrite String.eqb_eq.
    rewrite <- emailPattern_iff.
    set (s := textOf (prop formData "mail")).
    split; intros [H | H].
    + right. intros Hm. apply emailPattern_iff in Hm.
      now apply wellFormedMail_not_blank in Hm.
    + right. congruence.
    + left. now rewrite H.
    + right. now apply not_true_is_false.
  - apply expectedErrors_optional.
Qed.

Lemma validateForm_required_fields_witness :
  exists errs,
    BenutzerForm.validateForm (Sample.draftWithMail " ")
    = Normal (errs, match errs with [] => true | _ => false end)
    /\ lookup "mail" errs <> None
    /\ lookup "phone" errs = None.
Proof.
  destruct (validateForm_required_fields (Sample.draftWithMail " "))
    as ((errs & E & _ & Hmail & Hopt) & _).
  - intros f [<- | [<- | [<- | [<- | []]]]]; reflexivity.
  - exists errs. split; [exact E | split].
    + apply Hmail. right. intros (a & b & c & H & _). simpl in H.
      destruct a as [ | ch a]; [discriminate | ].
      destruct a; discriminate.
    + apply Hopt. simpl. auto.
Defined.

(** ** Submission of the form *)

Lemma load_identity (gtZero : value -> bool) (editUser : value)
  (st0 st1 : BenutzerForm.state) :
  BenutzerForm.load gtZero editUser st0 = Normal st1 ->
  hasIdentity (BenutzerForm.formData st1)
  = truthy editUser && truthy (getOpt editUser "userUid").
Proof.
  unfold BenutzerForm.load. destruct (truthy editUser) eqn:Et.
  - pose proof (truthy_not_nullish _ Et) as Hn.
    destruct (BenutzerForm.firstOrgOf gtZero editUser); [ | discriminate].
    cbn [bind]. rewrite !(get_getOpt editUser) by assumption. cbn [bind].
    destruct (BenutzerForm.firstRoleOf gtZero a); [ | discriminate].
    cbn [bind]. intros H. inversion H; subst. unfold hasIdentity. simpl.
    unfold orValue. destruct (truthy (getOpt editUser "userUid")) eqn:E;
      [exact E | reflexivity].
  - cbn [bind]. intros H. inversion H; subst. reflexivity.
Qed.

Lemma handleChange_formData (name value : string) (st : BenutzerForm.state) :
  BenutzerForm.formData (BenutzerForm.handleChange name value st)
  = setProp name (Str value) (BenutzerForm.formData st).
Proof.
  unfold BenutzerForm.handleChange.
  destruct (truthy (prop (BenutzerForm.errors st) name)); reflexivity.
Qed.

(** No field of the form writes the identity of the draft. *)
Lemma edit_identity (events : list (string * string)) (st : BenutzerForm.state) :
  Forall (fun e => In (fst e) BenutzerForm.fieldNames) events ->
  hasIdentity (BenutzerForm.formData (edit events st))
  = hasIdentity (BenutzerForm.formData st).
Proof.
  intros H. revert st. induction H as [ | e events He _ IH]; intros st;
    [reflexivity | ].
  unfold edit in *. cbn [fold_left]. rewrite IH.
  unfold hasIdentity. rewrite handleChange_formData.
  rewrite prop_setProp_other; [reflexivity | ].
  intros Heq. rewrite <- Heq in He.
  repeat (destruct He as [He | He]; [discriminate | ]). exact He.
Qed.

(** C6: the form has loaded [editUser] and some of its fields have been
    changed since.  [handleSubmit] validates first; on an invalid draft it
    stores the field errors and calls nothing; on a valid draft it makes
    exactly one gateway call, the update when the draft carries an identity
    and the creation when it carries none. *)
Theorem handleSubmit_create_or_update (gtZero : value -> bool)
  (editUser : value) (st0 st1 : BenutzerForm.state)
  (events : list (string * string)) (reply : outcome) :
  BenutzerForm.load gtZero editUser st0 = Normal st1 ->
  Forall (fun e => In (fst e) BenutzerForm.fieldNames) events ->
  textualDraft (BenutzerForm.formData (edit events st1)) ->
  let st := edit events st1 in
  exists errs valid,
    BenutzerForm.validateForm (BenutzerForm.formData st) = Normal (errs, valid)
    /\ if valid then
         exists st',
           BenutzerForm.handleSubmit editUser reply st
           = Normal ([if hasIdentity (BenutzerForm.formData st)
                      then UpdateUser (Obj (BenutzerForm.formData st))
                      else CreateUser (Obj (BenutzerForm.formData st))], st')
       else
         errs <> []
         /\ BenutzerForm.handleSubmit editUser reply st
            = Normal ([], BenutzerForm.setErrors errs st).
Proof.
  intros Hload Hev Ht st.
  pose proof (validateForm_textual _ Ht) as Hv. fold st in Hv.
  exists (expectedErrors (BenutzerForm.formData st)).
  eexists. split; [exact Hv | ].
  unfold BenutzerForm.handleSubmit. rewrite Hv. cbn [bind fst snd].
  rewrite length_zero_iff.
  destruct (expectedErrors (BenutzerForm.formData st)) eqn:Ee; cbn [negb].
  - assert (Hid : hasIdentity (BenutzerForm.formData st)
                  = truthy editUser && truthy (getOpt editUser "userUid")).
    { unfold st. rewrite edit_identity by assumption.
      now apply (load_identity gtZero editUser st0). }
    rewrite Hid. unfold andThen. cbn [bind].
    destruct (truthy editUser) eqn:Et.
    + rewrite (get_getOpt _ _ (truthy_not_nullish _ Et)). cbn [bind andb].
      destruct reply; eexists; reflexivity.
    + cbn [andb]. destruct reply; eexists; reflexivity.
  - split; [discriminate | reflexivity].
Qed.

Lemma handleSubmit_create_or_update_witness :
  (exists st1 st',
     BenutzerForm.load Sample.gtZero Sample.userA BenutzerForm.initial = Normal st1
     /\ BenutzerForm.handleSubmit Sample.userA (Resolved Null)
          (edit [("phone", "0123")] st1)
        = Normal ([UpdateUser (Obj (BenutzerForm.formData
                                      (edit [("phone", "0123")] st1)))], st'))
  /\ (exists st',
        BenutzerForm.handleSubmit Null (Resolved Null)
          (edit [("username", "dora"); ("firstname", "Dora");
                 ("lastname", "Dorn"); ("mail", "dora@example.org")]
             BenutzerForm.initial)
        = Normal ([CreateUser (Obj (BenutzerForm.formData
             (edit [("username", "dora"); ("firstname", "Dora");
                    ("lastname", "Dorn"); ("mail", "dora@example.org")]
                BenutzerForm.initial)))], st')).
Proof.
  split.
  - eexists. 
    destruct (handleSubmit_create_or_update Sample.gtZero Sample.userA
                BenutzerForm.initial _ [("phone", "0123")] (Resolved Null)
                eq_refl)
      as (errs & valid & Hv & H).
    + repeat (constructor; [simpl; auto 10 | ]). constructor.
    + intros f [<- | [<- | [<- | [<- | []]]]]; reflexivity.
    + vm_compute in Hv. inversion Hv; subst. destruct H as [st' H].
      exists st'. split; [reflexivity | exact H].
  - destruct (handleSubmit_create_or_update Sample.gtZero Null
                BenutzerForm.initial _
                [("username", "dora"); ("firstname", "Dora");
                 ("lastname", "Dorn"); ("mail", "dora@example.org")]
                (Resolved Null) eq_refl)
      as (errs & valid & Hv & H).
    + repeat (constructor; [simpl; auto 10 | ]). constructor.
    + intros f [<- | [<- | [<- | [<- | []]]]]; reflexivity.
    + vm_compute in Hv. inversion Hv; subst. exact H.
Defined.

(** ** The order of strings *)

Lemma ascii_compare_lt_trans (a b c : ascii) :
  Ascii.compare a b = Lt -> Ascii.compare b c = Lt -> Ascii.compare a c = Lt.
Proof.
  unfold Ascii.compare. rewrite !N.compare_lt_iff. apply N.lt_trans.
Qed.

Lemma compare_lt_trans (a b c : string) :
  String.compare a b = Lt -> String.compare b c = Lt -> String.compare a c = Lt.
Proof.
  revert b c. induction a as [ | x a IH]; intros [ | y b] [ | z c]; simpl;
    try congruence.
  destruct (Ascii.compare x y) eqn:Exy; try discriminate.
  - apply Ascii.compare_eq_iff in Exy. subst y.
    destruct (Ascii.compare x z); try congruence. apply IH.
  - intros _. destruct (Ascii.compare y z) eqn:Eyz; try discriminate.
    + apply Ascii.compare_eq_iff in Eyz. subst z. now rewrite Exy.
    + now rewrite (ascii_compare_lt_trans x y z).
Qed.

Lemma notAfter_trans (a b c : string) :
  notAfter a b -> notAfter b c -> notAfter a c.
Proof.
  unfold notAfter, String.ltb. intros Hab Hbc.
  destruct (String.compare c a) eqn:Eca; try reflexivity.
  destruct (String.compare b a) eqn:Eba; try discriminate.
  - apply String.compare_eq_iff in Eba. subst b. now rewrite Eca in Hbc.
  - rewrite String.compare_antisym in Eba.
    destruct (String.compare a b) eqn:Eab; try discriminate.
    now rewrite (compare_lt_trans c a b) in Hbc.
Qed.

Lemma ltb_notAfter (a b : string) : String.ltb a b = true -> notAfter a b.
Proof.
  unfold notAfter, String.ltb. rewrite (String.compare_antisym b a).
  destruct (String.compare a b); simpl; congruence.
Qed.

Lemma notAfter_ltb (a b : string) : notAfter a b -> a <> b -> String.ltb a b = true.
Proof.
  unfold notAfter, String.ltb. rewrite (String.compare_antisym b a).
  destruct (String.compare a b) eqn:E; simpl; try congruence.
  apply String.compare_eq_iff in E. congruence.
Qed.

(** ** The default sort *)

Lemma insertSorted_perm (x : string * value) (l : list (string * value)) :
  Permutation (insertSorted x l) (x :: l).
Proof.
  induction l as [ | y l IH]; simpl; [reflexivity | ].
  destruct (String.ltb (fst x) (fst y)); [reflexivity | ].
  rewrite IH. apply perm_swap.
Qed.

Lemma insertSorted_sorted (x : string * value) (l : list (string * value)) :
  keySorted l -> keySorted (insertSorted x l).
Proof.
  unfold keySorted. induction l as [ | y l IH]; simpl; intros H.
  - repeat constructor.
  - destruct (String.ltb (fst x) (fst y)) eqn:E.
    + constructor; [exact H | constructor; now apply ltb_notAfter].
    + inversion H as [ | ? ? Hl Hhd]; subst.
      constructor; [now apply IH | ].
      destruct l as [ | z l]; simpl.
      * constructor. exact E.
      * destruct (String.ltb (fst x) (fst z)); constructor;
          [exact E | now inversion Hhd].
Qed.

Lemma sortByKey_spec (l : list (string * value)) :
  Permutation (sortByKey l) l /\ keySorted (sortByKey l).
Proof.
  unfold sortByKey.
  assert (H : forall acc, keySorted acc ->
                Permutation (fold_left (fun a x => insertSorted x a) l acc)
                  (acc ++ l)%list
                /\ keySorted (fold_left (fun a x => insertSorted x a) l acc)).
  { induction l as [ | x l IH]; intros acc Hacc; simpl.
    - rewrite app_nil_r. split; [reflexivity | exact Hacc].
    - destruct (IH (insertSorted x acc) (insertSorted_sorted x acc Hacc))
        as [Hp Hs].
      split; [ | exact Hs]. rewrite Hp, insertSorted_perm.
      apply Permutation_middle. }
  destruct (H [] (Sorted_nil _)) as [Hp Hs]. split; [exact Hp | exact Hs].
Qed.

Lemma mapM_toString_Str (names : list string) :
  mapM toString (map Str names) = Normal names.
Proof.
  induction names as [ | s names IH]; simpl; [reflexivity | ].
  now rewrite IH.
Qed.

Lemma combine_Str (names : list string) :
  combine names (map Str names) = map (fun s => (s, Str s)) names.
Proof. induction names; simpl; congruence. Qed.

Lemma Sorted_map_fst (l : list (string * value)) :
  keySorted l -> Sorted notAfter (map fst l).
Proof.
  unfold keySorted. induction 1 as [ | x l Hl IH Hhd]; simpl; constructor;
    [exact IH | ].
  destruct Hhd; simpl; constructor; assumption.
Qed.

Lemma strictly_ascending (l : list string) :
  StronglySorted notAfter l -> NoDup l -> ascending l.
Proof.
  unfold ascending.
  induction 1 as [ | a l Hl IH Hall]; intros Hnd; constructor.
  - apply IH. now inversion Hnd.
  - inversion Hnd as [ | ? ? Hnotin _]; subst.
    rewrite Forall_forall in *. intros b Hb.
    apply notAfter_ltb; [now apply Hall | ]. intros ->. contradiction.
Qed.

(** Sorting a duplicate-free list of strings gives the same strings in
    strictly ascending order. *)
Lemma sort_strings (names : list string) :
  NoDup names ->
  exists sorted, sort (map Str names) = Normal (map Str sorted)
                 /\ Permutation sorted names
                 /\ ascending sorted.
Proof.
  intros Hnd.
  assert (Hgen : exists sorted,
             map snd (sortByKey (combine names (map Str names))) = map Str sorted
             /\ Permutation sorted names /\ ascending sorted).
  { rewrite combine_Str.
    destruct (sortByKey_spec (map (fun s => (s, Str s)) names)) as [Hp Hs].
    exists (map fst (sortByKey (map (fun s => (s, Str s)) names))).
    assert (Hperm : Permutation
                      (map fst (sortByKey (map (fun s => (s, Str s)) names)))
                      names).
    { rewrite Hp, map_map. simpl. now rewrite map_id. }
    split; [ | split; [exact Hperm | ]].
    - rewrite map_map. apply map_ext_in. intros [k v] Hin. simpl.
      apply (Permutation_in _ Hp) in Hin. apply in_map_iff in Hin.
      destruct Hin as (s & E & _). now inversion E.
    - apply Sorted_map_fst in Hs.
      apply Sorted_StronglySorted in Hs;
        [ | intros a b c; apply notAfter_trans].
      assert (Hnd' : NoDup (map fst (sortByKey (map (fun s => (s, Str s)) names))))
        by (eapply Permutation_NoDup; [symmetry; exact Hperm | exact Hnd]).
      now apply strictly_ascending. }
  destruct names as [ | a [ | b names]].
  - exists []. repeat split; constructor.
  - exists [a]. repeat split; repeat constructor.
  - unfold sort. cbn [map]. change (Str a :: Str b :: map Str names)
      with (map Str (a :: b :: names)).
    rewrite mapM_toString_Str. cbn [bind].
    destruct Hgen as (sorted & E & Hp & Ha). exists sorted.
    split; [now rewrite E | split; assumption].
Qed.

(** ** The Organisation Index *)

Lemma existsb_strictEquals_Str (s : string) (seen : list string) :
  existsb (strictEquals (Str s)) (map Str seen) = existsb (String.eqb s) seen.
Proof. induction seen as [ | x seen IH]; simpl; congruence. Qed.

Lemma setAdd_Str (s : string) (seen : list string) :
  setAdd (Str s) (map Str seen) = map Str (addName seen s).
Proof.
  unfold setAdd, addName. rewrite existsb_strictEquals_Str.
  destruct (existsb (String.eqb s) seen); [reflexivity | ].
  now rewrite map_app.
Qed.

Lemma addOrganisation_names (seen : list string) (org : value) :
  wellFormedMembership org = true ->
  Benutzerliste.addOrganisation (map Str seen) org
  = Normal (map Str (fold_left addName (nameOf org) seen)).
Proof.
  unfold wellFormedMembership. rewrite andb_true_iff, negb_true_iff.
  intros [Hn Ht]. unfold Benutzerliste.addOrganisation, nameOf.
  rewrite (get_getOpt _ _ Hn). cbn [bind].
  destruct (getOpt org "orgName") as [ | | b | n | s | l | p ];
    try discriminate; try reflexivity.
  simpl truthy. destruct (s =? ""); simpl; [reflexivity | ].
  now rewrite setAdd_Str.
Qed.

Lemma forEach_addOrganisation (orgs : list value) (seen : list string) :
  Forall (fun o => wellFormedMembership o = true) orgs ->
  forEach Benutzerliste.addOrganisation orgs (map Str seen)
  = Normal (map Str (fold_left addName (flat_map nameOf orgs) seen)).
Proof.
  intros H. revert seen. induction H as [ | org orgs Horg _ IH]; intros seen;
    simpl; [reflexivity | ].
  rewrite addOrganisation_names by assumption. cbn [bind].
  rewrite IH. now rewrite fold_left_app.
Qed.

Lemma addOrganisationsOf_names (seen : list string) (user : value) :
  wellFormedUser user = true ->
  Benutzerliste.addOrganisationsOf (map Str seen) user
  = Normal (map Str (fold_left addName (flat_map nameOf (memberships user)) seen)).
Proof.
  intros Hwf. destruct (wellFormedUser_inv user Hwf) as (Hn & _ & Ho).
  unfold Benutzerliste.addOrganisationsOf.
  rewrite !(get_getOpt user) by assumption. unfold andThen. cbn [bind].
  destruct Ho as [[Hnull ->] | (orgs & Heq & -> & Hall)].
  - destruct (getOpt user "organisations"); simpl in *;
      try discriminate; reflexivity.
  - rewrite Heq. cbn [truthy isArray elements bind].
    now apply forEach_addOrganisation.
Qed.

Lemma forEach_addOrganisationsOf (userList : list value) (seen : list string) :
  Forall (fun u => wellFormedUser u = true) userList ->
  forEach Benutzerliste.addOrganisationsOf userList (map Str seen)
  = Normal (map Str (fold_left addName (allNames userList) seen)).
Proof.
  intros H. revert seen. induction H as [ | u l Hu _ IH]; intros seen;
    simpl; [reflexivity | ].
  rewrite addOrganisationsOf_names by assumption. cbn [bind].
  rewrite IH. unfold allNames. simpl. now rewrite fold_left_app.
Qed.

Lemma addName_In (seen : list string) (s x : string) :
  In x (addName seen s) <-> In x seen \/ x = s.
Proof.
  unfold addName. destruct (existsb (String.eqb s) seen) eqn:E.
  - apply existsb_exists in E. destruct E as (y & Hy & Heq).
    apply String.eqb_eq in Heq. subst y.
    split; [auto | intros [H | ->]; assumption].
  - rewrite in_app_iff. simpl. intuition.
Qed.

Lemma addName_NoDup (seen : list string) (s : string) :
  NoDup seen -> NoDup (addName seen s).
Proof.
  intros H. unfold addName. destruct (existsb (String.eqb s) seen) eqn:E;
    [exact H | ].
  apply NoDup_app; [exact H | repeat constructor; intros [] | ].
  intros x Hx [Heq | []]. subst x.
  assert (Ht : existsb (String.eqb s) seen = true).
  { apply existsb_exists. exists s. split; [exact Hx | apply String.eqb_refl]. }
  congruence.
Qed.

Lemma fold_addName (names seen : list string) :
  NoDup seen ->
  NoDup (fold_left addName names seen)
  /\ forall x, In x (fold_left addName names seen) <-> In x seen \/ In x names.
Proof.
  revert seen. induction names as [ | s names IH]; intros seen Hnd; simpl.
  - split; [exact Hnd | intuition].
  - destruct (IH (addName seen s) (addName_NoDup seen s Hnd)) as [H1 H2].
    split; [exact H1 | ]. intros x. rewrite H2, addName_In. intuition.
Qed.

Lemma allNames_In (userList : list value) (s : string) :
  Forall (fun u => wellFormedUser u = true) userList ->
  In s (allNames userList) <-> s <> "" /\ organisationNameIn userList s.
Proof.
  intros Hwf. rewrite Forall_forall in Hwf.
  unfold allNames, organisationNameIn. rewrite in_flat_map. split.
  - intros (u & Hu & Hin). apply in_flat_map in Hin.
    destruct Hin as (org & Horg & Hs).
    pose proof (wellFormed_memberships u (Hwf u Hu)) as Hm.
    rewrite Forall_forall in Hm. unfold nameOf in Hs.
    destruct (getOpt org "orgName") eqn:E; try contradiction.
    destruct (s0 =? "") eqn:Es; [contradiction | ].
    destruct Hs as [-> | []]. apply String.eqb_neq in Es.
    split; [exact Es | ]. exists u, org. repeat split; try assumption.
    rewrite (get_getOpt _ _ (Hm org Horg)). now rewrite E.
  - intros (Hne & u & org & Hu & Horg & Hg). exists u. split; [exact Hu | ].
    apply in_flat_map. exists org. split; [exact Horg | ].
    unfold nameOf, getOpt. rewrite Hg.
    apply String.eqb_neq in Hne. rewrite Hne. simpl. auto.
Qed.

(** The index of a list of well-formed users. *)
Lemma organisationIndex_wellFormed (userList : list value) :
  Forall (fun u => wellFormedUser u = true) userList ->
  exists names,
    Benutzerliste.organisationIndex userList = Normal (map Str names)
    /\ ascending names
    /\ forall s, In s names <-> s <> "" /\ organisationNameIn userList s.
Proof.
  intros Hwf. unfold Benutzerliste.organisationIndex.
  change (@nil value) with (map Str []).
  rewrite forEach_addOrganisationsOf by assumption. cbn [bind].
  destruct (fold_addName (allNames userList) [] (NoDup_nil _)) as [Hnd Hin].
  destruct (sort_strings _ Hnd) as (sorted & Es & Hp & Ha).
  exists sorted. split; [exact Es | split; [exact Ha | ]].
  intros s. rewrite <- allNames_In by assumption.
  split.
  - intros H. apply (Permutation_in _ Hp) in H. apply Hin in H.
    destruct H as [[] | H]. exact H.
  - intros H. apply (Permutation_in _ (Permutation_sym Hp)).
    apply Hin. now right.
Qed.

(** C4 fails: a reload that finds no users empties the list and leaves the
    index with the organisation of the users that are gone. *)
Lemma fetchUsers_empty_keeps_index :
  let st' := snd (Benutzerliste.fetchUsers (Obj []) (Resolved (Arr []))
                    Sample.loaded) in
  Benutzerliste.error st' = None
  /\ Benutzerliste.users st' = []
  /\ Benutzerliste.organisations st' = [Str "Acme"].
Proof. repeat split. Qed.

(** C4 as amended: a list call that succeeds and delivers at least one user
    stores the users and sets the index to the names of their memberships
    that are not empty, strictly ascending and so without duplicates; a
    list call that delivers no user leaves the index as it was. *)
Theorem fetchUsers_organisation_index (params response : value)
  (st : Benutzerliste.state) (userList : list value) :
  Benutzerliste.normalize response = Normal userList ->
  Forall (fun u => wellFormedUser u = true) userList ->
  let st' := snd (Benutzerliste.fetchUsers params (Resolved response) st) in
  Benutzerliste.users st' = userList
  /\ Benutzerliste.error st' = None
  /\ (userList = [] ->
      Benutzerliste.organisations st' = Benutzerliste.organisations st)
  /\ (userList <> [] ->
      exists names,
        Benutzerliste.organisations st' = map Str names
        /\ ascending names
        /\ forall s, In s names <-> s <> "" /\ organisationNameIn userList s).
Proof.
  intros Hnorm Hwf. unfold Benutzerliste.normalize in Hnorm.
  unfold Benutzerliste.fetchUsers.
  destruct (Benutzerliste.extractUserList response) as [v | e];
    [ | discriminate].
  cbn [bind] in Hnorm. inversion Hnorm as [Hl]. clear Hnorm.
  unfold Benutzerliste.asArray in *.
  destruct (isArray v) eqn:Ea.
  - destruct v; try discriminate. cbn [elements] in *. subst elems.
    cbn [andb]. destruct userList as [ | u l].
    + simpl. repeat split; try reflexivity; intros H; now elim H.
    + cbn [List.length Nat.ltb Nat.leb].
      destruct (organisationIndex_wellFormed (u :: l) Hwf)
        as (names & E & Ha & Hin).
      rewrite E. simpl. repeat split; try discriminate.
      intros _. exists names. split; [reflexivity | split; assumption].
  - subst userList. simpl. repeat split; try reflexivity; intros H; now elim H.
Qed.

Lemma fetchUsers_organisation_index_witness :
  Benutzerliste.users Sample.loaded = [Sample.userA; Sample.userB; Sample.userC]
  /\ exists names,
       Benutzerliste.organisations Sample.loaded = map Str names
       /\ ascending names
       /\ (In "Acme" names <-> "Acme" <> ""
             /\ organisationNameIn [Sample.userA; Sample.userB; Sample.userC] "Acme").
Proof.
  destruct (fetchUsers_organisation_index (Obj [])
              (Arr [Sample.userA; Sample.userB; Sample.userC])
              Benutzerliste.initial
              [Sample.userA; Sample.userB; Sample.userC])
    as (Hu & _ & _ & Hidx).
  - reflexivity.
  - repeat constructor.
  - split; [exact Hu | ].
    destruct Hidx as (names & E & Ha & Hin); [discriminate | ].
    exists names. split; [exact E | split; [exact Ha | apply Hin]].
Defined.

(* ================================================================= *)
(** * Further properties of the components *)

(** ** The list response *)

(** X1: The three formats of a list response give the same list: a bare
    sequence, a sequence under [_embedded.users] (which wins over whatever
    else the response holds), and a sequence under [content] when there are
    no embedded users. *)
Theorem normalize_three_shapes (l : list value) (props : list (string * value)) :
  Benutzerliste.normalize (Arr l) = Normal l
  /\ (get (prop props "_embedded") "users" = Normal (Arr l) ->
      Benutzerliste.normalize (Obj props) = Normal l)
  /\ (prop props "content" = Arr l ->
      truthy (getOpt (prop props "_embedded") "users") = false ->
      Benutzerliste.normalize (Obj props) = Normal l).
Proof.
  split; [reflexivity | split].
  - intros H. unfold Benutzerliste.normalize, Benutzerliste.extractUserList.
    cbn [get bind andThen].
    destruct (prop props "_embedded") as [ | | b | n | s | es | eprops ];
      simpl in H; try discriminate.
    cbn [truthy get bind]. inversion H as [Hu]. rewrite Hu. reflexivity.
  - intros Hc Hf. unfold Benutzerliste.normalize, Benutzerliste.extractUserList.
    cbn [get bind andThen]. rewrite Hc.
    destruct (truthy (prop props "_embedded")) eqn:Et.
    + rewrite (get_getOpt _ "users" (truthy_not_nullish _ Et)).
      cbn [bind]. rewrite Hf. reflexivity.
    + reflexivity.
Qed.

Lemma normalize_three_shapes_witness :
  Benutzerliste.normalize
    (Obj [("_embedded", Obj [("users", Arr [Sample.userA])]);
          ("content", Arr [Sample.userB])])
  = Normal [Sample.userA]
  /\ Benutzerliste.normalize
       (Obj [("content", Arr [Sample.userB]); ("page", Number 0)])
     = Normal [Sample.userB].
Proof.
  split.
  - apply (proj1 (proj2 (normalize_three_shapes [Sample.userA]
                           [("_embedded", Obj [("users", Arr [Sample.userA])]);
                            ("content", Arr [Sample.userB])]))).
    reflexivity.
  - apply (proj2 (proj2 (normalize_three_shapes [Sample.userB]
                           [("content", Arr [Sample.userB]); ("page", Number 0)])));
      reflexivity.
Defined.

(** ** The list call *)

(** [fetchUsers] makes the one list call, ends with the loading flag down,
    and leaves the filters, the dialogs and the form as they are: a reload
    does not look at the search term or the selected organisation. *)
Lemma fetchUsers_frame (params : value) (reply : outcome)
  (st : Benutzerliste.state) :
  let r := Benutzerliste.fetchUsers params reply st in
  fst r = [GetUsers params]
  /\ Benutzerliste.loading (snd r) = false
  /\ Benutzerliste.searchTerm (snd r) = Benutzerliste.searchTerm st
  /\ Benutzerliste.organisationFilter (snd r) = Benutzerliste.organisationFilter st
  /\ Benutzerliste.selectedUser (snd r) = Benutzerliste.selectedUser st
  /\ Benutzerliste.detailOpen (snd r) = Benutzerliste.detailOpen st
  /\ Benutzerliste.deleteDialogOpen (snd r) = Benutzerliste.deleteDialogOpen st
  /\ Benutzerliste.deleteTargetId (snd r) = Benutzerliste.deleteTargetId st
  /\ Benutzerliste.formOpen (snd r) = Benutzerliste.formOpen st
  /\ Benutzerliste.editingUser (snd r) = Benutzerliste.editingUser st.
Proof.
  unfold Benutzerliste.fetchUsers. cbn [fst snd].
  destruct reply as [response | err]; [ | repeat split].
  destruct (Benutzerliste.extractUserList response) as [v | e];
    [ | repeat split].
  destruct (isArray v && (0 <? List.length (elements v))%nat);
    [ | repeat split].
  destruct (Benutzerliste.organisationIndex (elements v)); repeat split.
Qed.

(** X2: After a save the list is reloaded and the form is closed, whatever the
    outcome of the reload.  The reloaded list is shown as delivered: the
    search term and the selected organisation keep their values and are not
    applied to it.  When the reload fails the list stays and the load error
    is shown. *)
Theorem handleFormSuccess_reloads_unfiltered (reply : outcome)
  (st : Benutzerliste.state) :
  let r := Benutzerliste.handleFormSuccess reply st in
  fst r = [GetUsers (Obj [])]
  /\ Benutzerliste.formOpen (snd r) = false
  /\ Benutzerliste.editingUser (snd r) = Null
  /\ Benutzerliste.searchTerm (snd r) = Benutzerliste.searchTerm st
  /\ Benutzerliste.organisationFilter (snd r) = Benutzerliste.organisationFilter st
  /\ match reply with
     | Resolved response =>
         forall l, response = Arr l -> Benutzerliste.users (snd r) = l
     | Rejected _ =>
         Benutzerliste.users (snd r) = Benutzerliste.users st
         /\ Benutzerliste.error (snd r) = Some Benutzerliste.msgLoad
     end.
Proof.
  unfold Benutzerliste.handleFormSuccess.
  destruct (fetchUsers_frame (Obj []) reply st)
    as (Hc & _ & Hs & Ho & _).
  pose proof (fetchUsers_stores_sequence (Obj [])) as Hseq.
  destruct (Benutzerliste.fetchUsers (Obj []) reply st) as [calls st'] eqn:E.
  cbn [fst snd] in *. repeat split; try assumption.
  destruct reply as [response | err].
  - intros l ->. specialize (Hseq l st). rewrite E in Hseq. exact Hseq.
  - unfold Benutzerliste.fetchUsers in E. inversion E; subst. split; reflexivity.
Qed.

(** ** The detail view and the dialogs *)

(** X3: [handleViewDetails] makes the one detail call and never touches the
    list or the index.  A record arrives bare or under [content]; the
    dialog opens with it.  A fault, and likewise the response [null], sets
    the detail error and opens nothing. *)
Theorem handleViewDetails_outcomes (userId : value) (reply : outcome)
  (st : Benutzerliste.state) :
  let r := Benutzerliste.handleViewDetails userId reply st in
  let failed :=
    Benutzerliste.error (snd r) = Some Benutzerliste.msgDetails
    /\ Benutzerliste.detailOpen (snd r) = Benutzerliste.detailOpen st
    /\ Benutzerliste.selectedUser (snd r) = Benutzerliste.selectedUser st in
  fst r = [GetUserById userId]
  /\ Benutzerliste.users (snd r) = Benutzerliste.users st
  /\ Benutzerliste.organisations (snd r) = Benutzerliste.organisations st
  /\ match reply with
     | Resolved response =>
         if nullish response then failed
         else Benutzerliste.detailOpen (snd r) = true
              /\ Benutzerliste.selectedUser (snd r)
                 = orValue (getOpt response "content") response
              /\ Benutzerliste.error (snd r) = Benutzerliste.error st
     | Rejected _ => failed
     end.
Proof.
  unfold Benutzerliste.handleViewDetails. cbn [fst snd].
  destruct reply as [response | err]; [ | repeat split].
  destruct (nullish response) eqn:En.
  - destruct response; try discriminate; repeat split.
  - rewrite (get_getOpt _ _ En). repeat split.
Qed.

(** X4: Opening a dialog and closing it again leaves the component as it was:
    the delete dialog after a cancel, the detail dialog after a look at a
    record. *)
Theorem dialogs_open_close (userId response : value) (st : Benutzerliste.state) :
  (Benutzerliste.deleteDialogOpen st = false ->
   Benutzerliste.deleteTargetId st = Null ->
   Benutzerliste.handleCloseDeleteDialog
     (Benutzerliste.handleOpenDeleteDialog userId st) = st)
  /\ (Benutzerliste.detailOpen st = false ->
      Benutzerliste.selectedUser st = Null ->
      nullish response = false ->
      Benutzerliste.handleCloseDetail
        (snd (Benutzerliste.handleViewDetails userId (Resolved response) st))
      = st).
Proof.
  split.
  - intros H1 H2. destruct st; simpl in *. now subst.
  - intros H1 H2 Hn. unfold Benutzerliste.handleViewDetails. cbn [snd].
    rewrite (get_getOpt _ _ Hn). destruct st; simpl in *. now subst.
Qed.

Lemma dialogs_open_close_witness :
  Benutzerliste.handleCloseDeleteDialog
    (Benutzerliste.handleOpenDeleteDialog (Str "b") Sample.loaded)
  = Sample.loaded
  /\ Benutzerliste.handleCloseDetail
       (snd (Benutzerliste.handleViewDetails (Str "b")
               (Resolved (Obj [("content", Sample.userB)])) Sample.loaded))
     = Sample.loaded.
Proof.
  split.
  - apply (proj1 (dialogs_open_close (Str "b") Null Sample.loaded));
      reflexivity.
  - apply (proj2 (dialogs_open_close (Str "b")
                    (Obj [("content", Sample.userB)]) Sample.loaded));
      reflexivity.
Defined.

(** ** Delete, in general *)



(** ** How filters compose *)

Lemma filter_narrow {A} (p q : A -> bool) (l : list A) :
  (forall x, In x l -> q x = true -> p x = true) ->
  List.filter q (List.filter p l) = List.filter q l.
Proof.
  intros H. rewrite filter_filter. apply filter_ext_in.
  intros x Hx. destruct (q x) eqn:E; [ | apply andb_false_r].
  now rewrite (H x Hx E).
Qed.

(** Filtering a filtered list gives the result for the loaded collection
    whenever the second filter is at least as strict as the first. *)
Lemma visible_narrow (l : list value) (t1 s1 t2 s2 : string) :
  (forall u, In u l ->
     textTest t2 u && organisationTest s2 u = true ->
     textTest t1 u && organisationTest s1 u = true) ->
  visible (visible l t1 s1) t2 s2 = visible l t2 s2.
Proof. intros H. unfold visible. now apply filter_narrow. Qed.

(** A filter that every record on the list passes keeps the list. *)
Lemma visible_keep (l : list value) (t1 s1 t2 s2 : string) :
  (forall u, In u l ->
     textTest t1 u && organisationTest s1 u = true ->
     textTest t2 u && organisationTest s2 u = true) ->
  visible (visible l t1 s1) t2 s2 = visible l t1 s1.
Proof.
  intros H. unfold visible. rewrite filter_filter. apply filter_ext_in.
  intros x Hx.
  destruct (textTest t1 x && organisationTest s1 x) eqn:E; [ | reflexivity].
  now rewrite (H x Hx E).
Qed.





Lemma handleNameSearch_visible (reply : outcome) (value : string)
  (st : Benutzerliste.state) :
  Forall (fun u => wellFormedUser u = true) (Benutzerliste.users st) ->
  value <> "" \/ Benutzerliste.organisationFilter st <> "" ->
  Benutzerliste.handleNameSearch reply value st
  = Normal ([], Benutzerliste.setUsers
                  (visible (Benutzerliste.users st) value
                     (Benutzerliste.organisationFilter st))
                  (Benutzerliste.setSearchTerm value st)).
Proof.
  intros Hwf Hne. unfold Benutzerliste.handleNameSearch.
  now rewrite applyFilters_visible.
Qed.

Lemma handleOrganisationFilter_visible (reply : outcome) (value : string)
  (st : Benutzerliste.state) :
  Forall (fun u => wellFormedUser u = true) (Benutzerliste.users st) ->
  Benutzerliste.searchTerm st <> "" \/ value <> "" ->
  Benutzerliste.handleOrganisationFilter reply value st
  = Normal ([], Benutzerliste.setUsers
                  (visible (Benutzerliste.users st)
                     (Benutzerliste.searchTerm st) value)
                  (Benutzerliste.setOrganisationFilter value st)).
Proof.
  intros Hwf Hne. unfold Benutzerliste.handleOrganisationFilter.
  now rewrite applyFilters_visible.
Qed.

Lemma visible_wellFormed (l : list value) (t s : string) :
  Forall (fun u => wellFormedUser u = true) l ->
  Forall (fun u => wellFormedUser u = true) (visible l t s).
Proof. intros H. unfold visible. now apply Forall_filter. Qed.

(** X6: Applying the same filter again changes nothing. *)
Theorem applyFilters_idempotent (reply : outcome) (term selection : string)
  (st : Benutzerliste.state) :
  Forall (fun u => wellFormedUser u = true) (Benutzerliste.users st) ->
  term <> "" \/ selection <> "" ->
  exists st1,
    Benutzerliste.applyFilters reply term selection st = Normal ([], st1)
    /\ Benutzerliste.applyFilters reply term selection st1 = Normal ([], st1).
Proof.
  intros Hwf Hne. eexists. split; [now apply applyFilters_visible | ].
  rewrite applyFilters_visible;
    [ | now apply visible_wellFormed | exact Hne].
  cbn [Benutzerliste.users Benutzerliste.setUsers].
  rewrite visible_narrow by auto. reflexivity.
Qed.

Lemma applyFilters_idempotent_witness :
  exists st1,
    Benutzerliste.applyFilters (Resolved Null) "b" "Acme" Sample.loaded
    = Normal ([], st1)
    /\ Benutzerliste.applyFilters (Resolved Null) "b" "Acme" st1
       = Normal ([], st1).
Proof.
  apply (applyFilters_idempotent (Resolved Null) "b" "Acme" Sample.loaded).
  - repeat constructor.
  - left. discriminate.
Defined.



(** X8: With no filter active, choosing an organisation and then typing a term,
    or typing a term and then choosing an organisation, shows the records
    of the starting list that pass both: adding the second filter loses
    nothing. *)
Theorem second_filter_is_exact (reply : outcome) (term selection : string)
  (st : Benutzerliste.state) :
  Forall (fun u => wellFormedUser u = true) (Benutzerliste.users st) ->
  Benutzerliste.searchTerm st = "" ->
  Benutzerliste.organisationFilter st = "" ->
  term <> "" -> selection <> "" ->
  (exists st1 st2,
     Benutzerliste.handleOrganisationFilter reply selection st = Normal ([], st1)
     /\ Benutzerliste.handleNameSearch reply term st1 = Normal ([], st2)
     /\ Benutzerliste.users st2 = visible (Benutzerliste.users st) term selection)
  /\ (exists st1 st2,
        Benutzerliste.handleNameSearch reply term st = Normal ([], st1)
        /\ Benutzerliste.handleOrganisationFilter reply selection st1
           = Normal ([], st2)
        /\ Benutzerliste.users st2
           = visible (Benutzerliste.users st) term selection).
Proof.
  intros Hwf Hs Ho Ht Hsel. split; eexists; eexists.
  - split; [apply handleOrganisationFilter_visible; auto | ].
    split; [apply handleNameSearch_visible;
            [now apply visible_wellFormed | auto] | ].
    cbn [Benutzerliste.users Benutzerliste.setUsers
         Benutzerliste.setOrganisationFilter Benutzerliste.setSearchTerm
         Benutzerliste.organisationFilter Benutzerliste.searchTerm].
    rewrite Hs. apply visible_narrow. intros u _ H.
    apply andb_true_iff in H. now destruct H as [_ ->].
  - split; [apply handleNameSearch_visible; auto | ].
    split; [apply handleOrganisationFilter_visible;
            [now apply visible_wellFormed | auto] | ].
    cbn [Benutzerliste.users Benutzerliste.setUsers
         Benutzerliste.setOrganisationFilter Benutzerliste.setSearchTerm
         Benutzerliste.organisationFilter Benutzerliste.searchTerm].
    rewrite Ho. apply visible_narrow. intros u _ H.
    apply andb_true_iff in H. destruct H as [-> _]. reflexivity.
Qed.

Lemma second_filter_is_exact_witness :
  exists st1 st2,
    Benutzerliste.handleOrganisationFilter (Resolved Null) "Acme" Sample.loaded
    = Normal ([], st1)
    /\ Benutzerliste.handleNameSearch (Resolved Null) "bob" st1 = Normal ([], st2)
    /\ Benutzerliste.users st2 = [Sample.userB].
Proof.
  destruct (second_filter_is_exact (Resolved Null) "bob" "Acme" Sample.loaded)
    as ((st1 & st2 & E1 & E2 & E3) & _);
    try reflexivity; try discriminate.
  - repeat constructor.
  - exists st1, st2. split; [exact E1 | split; [exact E2 | ]].
    rewrite E3. reflexivity.
Defined.

(** X9: Emptying the search field while an organisation is selected makes no
    gateway call and filters the list on the screen by the organisation
    alone.  After a search within that organisation the list therefore
    stays with the records the search had found, under an empty search
    field. *)
Theorem clearing_term_keeps_result (reply : outcome) (term selection : string)
  (st : Benutzerliste.state) :
  Forall (fun u => wellFormedUser u = true) (Benutzerliste.users st) ->
  Benutzerliste.searchTerm st = "" ->
  term <> "" -> selection <> "" ->
  exists st1 st2 st3,
    Benutzerliste.handleOrganisationFilter reply selection st = Normal ([], st1)
    /\ Benutzerliste.handleNameSearch reply term st1 = Normal ([], st2)
    /\ Benutzerliste.handleNameSearch reply "" st2 = Normal ([], st3)
    /\ Benutzerliste.searchTerm st3 = ""
    /\ Benutzerliste.organisationFilter st3 = selection
    /\ Benutzerliste.users st3 = visible (Benutzerliste.users st) term selection
    /\ Benutzerliste.users st1 = visible (Benutzerliste.users st) "" selection.
Proof.
  intros Hwf Hs Ht Hsel. eexists. eexists. eexists.
  split; [apply handleOrganisationFilter_visible; auto | ].
  split; [apply handleNameSearch_visible;
          [now apply visible_wellFormed | auto] | ].
  split; [apply handleNameSearch_visible;
          [now apply visible_wellFormed, visible_wellFormed | right; exact Hsel] | ].
  cbn [Benutzerliste.users Benutzerliste.setUsers
       Benutzerliste.setOrganisationFilter Benutzerliste.setSearchTerm
       Benutzerliste.organisationFilter Benutzerliste.searchTerm].
  rewrite Hs.
  split; [reflexivity | split; [reflexivity | split; [ | reflexivity]]].
  rewrite visible_keep.
  - apply visible_narrow. intros u _ H.
    apply andb_true_iff in H. now destruct H as [_ ->].
  - intros u _ H. apply andb_true_iff in H. now destruct H as [_ ->].
Qed.

Lemma clearing_term_keeps_result_witness :
  exists st1 st2 st3,
    Benutzerliste.handleOrganisationFilter (Resolved Null) "Acme" Sample.loaded
    = Normal ([], st1)
    /\ Benutzerliste.handleNameSearch (Resolved Null) "bob" st1 = Normal ([], st2)
    /\ Benutzerliste.handleNameSearch (Resolved Null) "" st2 = Normal ([], st3)
    /\ Benutzerliste.searchTerm st3 = ""
    /\ Benutzerliste.users st3 = [Sample.userB]
    /\ Benutzerliste.users st1 = [Sample.userA; Sample.userB].
Proof.
  destruct (clearing_term_keeps_result (Resolved Null) "bob" "Acme" Sample.loaded)
    as (st1 & st2 & st3 & E1 & E2 & E3 & E4 & _ & E5 & E6);
    try reflexivity; try discriminate.
  - repeat constructor.
  - exists st1, st2, st3.
    split; [exact E1 | split; [exact E2 | split; [exact E3 | split; [exact E4 | ]]]].
    rewrite E5, E6. split; reflexivity.
Defined.

(** X10: Emptying the last active filter reloads: the one list call is made, and
    the list becomes what the gateway delivers.  When the call fails the
    filtered list stays on the screen, now under empty filters, with the
    load error. *)
Theorem clearing_last_filter_reloads (reply : outcome) (st : Benutzerliste.state) :
  let outcomeOf (st' : Benutzerliste.state) :=
    match reply with
    | Resolved response =>
        forall l, response = Arr l -> Benutzerliste.users st' = l
    | Rejected _ =>
        Benutzerliste.users st' = Benutzerliste.users st
        /\ Benutzerliste.error st' = Some Benutzerliste.msgLoad
    end in
  (Benutzerliste.organisationFilter st = "" ->
   exists st',
     Benutzerliste.handleNameSearch reply "" st
     = Normal ([GetUsers (Obj [])], st')
     /\ Benutzerliste.searchTerm st' = "" /\ outcomeOf st')
  /\ (Benutzerliste.searchTerm st = "" ->
      exists st',
        Benutzerliste.handleOrganisationFilter reply "" st
        = Normal ([GetUsers (Obj [])], st')
        /\ Benutzerliste.organisationFilter st' = "" /\ outcomeOf st').
Proof.
  assert (H : forall st0, Benutzerliste.users st0 = Benutzerliste.users st ->
            match reply with
            | Resolved response =>
                forall l, response = Arr l ->
                  Benutzerliste.users
                    (snd (Benutzerliste.fetchUsers (Obj []) reply st0)) = l
            | Rejected _ =>
                Benutzerliste.users
                  (snd (Benutzerliste.fetchUsers (Obj []) reply st0))
                = Benutzerliste.users st
                /\ Benutzerliste.error
                     (snd (Benutzerliste.fetchUsers (Obj []) reply st0))
                   = Some Benutzerliste.msgLoad
            end).
  { intros st0 Hu. destruct reply as [response | err].
    - intros l ->. apply fetchUsers_stores_sequence.
    - simpl. split; [exact Hu | reflexivity]. }
  split; intros Hempty.
  - unfold Benutzerliste.handleNameSearch, Benutzerliste.applyFilters.
    rewrite Hempty. cbn [truthy String.eqb negb andb].
    destruct (fetchUsers_frame (Obj []) reply (Benutzerliste.setSearchTerm "" st))
      as (Hc & _ & Hs & _).
    specialize (H (Benutzerliste.setSearchTerm "" st) eq_refl).
    destruct (Benutzerliste.fetchUsers (Obj []) reply
                (Benutzerliste.setSearchTerm "" st)) as [calls st'].
    cbn [fst snd] in *. subst calls. exists st'.
    split; [reflexivity | split; [exact Hs | exact H]].
  - unfold Benutzerliste.handleOrganisationFilter, Benutzerliste.applyFilters.
    rewrite Hempty. cbn [truthy String.eqb negb andb].
    destruct (fetchUsers_frame (Obj []) reply
                (Benutzerliste.setOrganisationFilter "" st))
      as (Hc & _ & _ & Ho & _).
    specialize (H (Benutzerliste.setOrganisationFilter "" st) eq_refl).
    destruct (Benutzerliste.fetchUsers (Obj []) reply
                (Benutzerliste.setOrganisationFilter "" st)) as [calls st'].
    cbn [fst snd] in *. subst calls. exists st'.
    split; [reflexivity | split; [exact Ho | exact H]].
Qed.

Lemma clearing_last_filter_reloads_witness :
  exists st1 st2,
    Benutzerliste.handleNameSearch (Resolved Null) "anna" Sample.loaded
    = Normal ([], st1)
    /\ Benutzerliste.handleNameSearch
         (Resolved (Arr [Sample.userB; Sample.userC])) "" st1
       = Normal ([GetUsers (Obj [])], st2)
    /\ Benutzerliste.users st2 = [Sample.userB; Sample.userC].
Proof.
  eexists.
  destruct (proj1 (clearing_last_filter_reloads
                     (Resolved (Arr [Sample.userB; Sample.userC]))
                     (Benutzerliste.setUsers [Sample.userA]
                        (Benutzerliste.setSearchTerm "anna" Sample.loaded)))
              eq_refl)
    as (st2 & E & _ & H).
  exists st2. split; [reflexivity | split; [exact E | now apply H]].
Defined.

(** ** The organisation index, once more *)

Lemma ltb_irrefl (a : string) : String.ltb a a = false.
Proof.
  unfold String.ltb. destruct (String.compare a a) eqn:E; try reflexivity.
  pose proof (String.compare_antisym a a) as H. rewrite E in H. discriminate.
Qed.

(** A set of strings has one strictly ascending list. *)
Lemma ascending_unique (l1 l2 : list string) :
  ascending l1 -> ascending l2 ->
  (forall x, In x l1 <-> In x l2) -> l1 = l2.
Proof.
  unfold ascending. intros H1. revert l2.
  induction H1 as [ | a l1 Hs1 IH Ha]; intros l2 H2 Hin.
  - destruct l2 as [ | b l2]; [reflexivity | ].
    exfalso. apply (Hin b). simpl. auto.
  - destruct H2 as [ | b l2 Hs2 Hb].
    + exfalso. apply (Hin a). simpl. auto.
    + rewrite Forall_forall in Ha, Hb.
      assert (Hab : a = b).
      { destruct (proj1 (Hin a) (or_introl eq_refl)) as [E | Ia]; [now subst | ].
        destruct (proj2 (Hin b) (or_introl eq_refl)) as [E | Ib]; [now subst | ].
        pose proof (Ha b Ib) as L1. pose proof (Hb a Ia) as L2.
        apply ltb_notAfter in L1. unfold notAfter in L1. congruence. }
      subst b. f_equal. apply IH; [exact Hs2 | ].
      intros x. split; intros Hx.
      * destruct (proj1 (Hin x) (or_intror Hx)) as [E | I2]; [ | exact I2].
        subst x. pose proof (Ha a Hx) as L. rewrite ltb_irrefl in L. discriminate.
      * destruct (proj2 (Hin x) (or_intror Hx)) as [E | I1]; [ | exact I1].
        subst x. pose proof (Hb a Hx) as L. rewrite ltb_irrefl in L. discriminate.
Qed.

(** X12: The index depends on which records are loaded, not on their order or
    on how often a record occurs. *)
Theorem organisationIndex_of_a_set (l1 l2 : list value) :
  Forall (fun u => wellFormedUser u = true) l1 ->
  Forall (fun u => wellFormedUser u = true) l2 ->
  (forall u, In u l1 <-> In u l2) ->
  Benutzerliste.organisationIndex l1 = Benutzerliste.organisationIndex l2.
Proof.
  intros H1 H2 Hin.
  destruct (organisationIndex_wellFormed l1 H1) as (n1 & E1 & A1 & I1).
  destruct (organisationIndex_wellFormed l2 H2) as (n2 & E2 & A2 & I2).
  rewrite E1, E2. do 2 f_equal. apply ascending_unique; try assumption.
  intros s. rewrite I1, I2. unfold organisationNameIn.
  split; intros (Hne & u & org & Hu & Hr); (split; [exact Hne | ]);
    exists u, org; (split; [now apply Hin | exact Hr]).
Qed.

Lemma organisationIndex_of_a_set_witness :
  Benutzerliste.organisationIndex [Sample.userA; Sample.userB; Sample.userC]
  = Benutzerliste.organisationIndex
      [Sample.userC; Sample.userB; Sample.userC; Sample.userA].
Proof.
  apply organisationIndex_of_a_set.
  - repeat constructor.
  - repeat constructor.
  - intros u. simpl. intuition.
Defined.

Lemma fetchUsers_loaded (params response : value) (st : Benutzerliste.state)
  (u : value) (l : list value) :
  Benutzerliste.normalize response = Normal (u :: l) ->
  Forall (fun x => wellFormedUser x = true) (u :: l) ->
  let st' := snd (Benutzerliste.fetchUsers params (Resolved response) st) in
  Benutzerliste.users st' = u :: l
  /\ exists names,
       Benutzerliste.organisations st' = map Str names
       /\ ascending names
       /\ forall s, In s names <-> s <> "" /\ organisationNameIn (u :: l) s.
Proof.
  intros Hnorm Hwf. unfold Benutzerliste.normalize in Hnorm.
  unfold Benutzerliste.fetchUsers.
  destruct (Benutzerliste.extractUserList response) as [v | e];
    [ | discriminate].
  cbn [bind] in Hnorm. inversion Hnorm as [Hl]. clear Hnorm.
  unfold Benutzerliste.asArray in *.
  destruct v; try discriminate. cbn [isArray elements andb] in *. subst elems.
  cbn [List.length Nat.ltb Nat.leb].
  destruct (organisationIndex_wellFormed (u :: l) Hwf) as (names & E & Ha & Hin).
  rewrite E. simpl. split; [reflexivity | ].
  exists names. split; [reflexivity | split; assumption].
Qed.

(** X13: Right after a load every entry of the index is a name that is not
    empty, and selecting it shows at least one user. *)
Theorem index_entries_select_users (params response : value) (reply : outcome)
  (st : Benutzerliste.state) (u : value) (l : list value) :
  Benutzerliste.normalize response = Normal (u :: l) ->
  Forall (fun x => wellFormedUser x = true) (u :: l) ->
  let st' := snd (Benutzerliste.fetchUsers params (Resolved response) st) in
  forall o, In o (Benutzerliste.organisations st') ->
    exists s st'',
      o = Str s /\ s <> ""
      /\ Benutzerliste.applyFilters reply "" s st' = Normal ([], st'')
      /\ Benutzerliste.users st'' <> [].
Proof.
  intros Hnorm Hwf st' o Ho.
  destruct (fetchUsers_loaded params response st u l Hnorm Hwf)
    as (Hu & names & En & _ & Hin).
  fold st' in Hu, En. rewrite En in Ho. apply in_map_iff in Ho.
  destruct Ho as (s & <- & Hs). apply Hin in Hs.
  destruct Hs as (Hne & x & org & Hx & Horg & Hg).
  exists s. eexists. split; [reflexivity | split; [exact Hne | ]].
  split.
  - apply applyFilters_visible; [now rewrite Hu | now right].
  - cbn [Benutzerliste.users Benutzerliste.setUsers]. rewrite Hu.
    assert (Hv : In x (visible (u :: l) "" s)).
    { unfold visible. apply filter_In. split; [exact Hx | ].
      unfold textTest, organisationTest. cbn [String.eqb orb andb].
      apply orb_true_iff. right. apply existsb_exists.
      exists org. split; [exact Horg | ].
      unfold getOpt. rewrite Hg. apply String.eqb_refl. }
    intros E. rewrite E in Hv. exact Hv.
Qed.

Lemma index_entries_select_users_witness :
  exists s st'',
    Str "Acme" = Str s /\ s <> ""
    /\ Benutzerliste.applyFilters (Resolved Null) "" s Sample.loaded
       = Normal ([], st'')
    /\ Benutzerliste.users st'' <> [].
Proof.
  apply (index_entries_select_users (Obj [])
           (Arr [Sample.userA; Sample.userB; Sample.userC]) (Resolved Null)
           Benutzerliste.initial Sample.userA [Sample.userB; Sample.userC]).
  - reflexivity.
  - repeat constructor.
  - simpl. auto.
Defined.

(** X14: The timer callback of [extractOrganisations] computes the index of the
    users of the render that created it, without the test for an empty
    list that [fetchUsers] makes: for an empty list it sets the empty
    index.  It sets no other cell.  Created by the first render, when no
    user is loaded yet, it empties the index whenever it runs. *)
Theorem extractOrganisations_index (rendered st : Benutzerliste.state) :
  Forall (fun u => wellFormedUser u = true) (Benutzerliste.users rendered) ->
  let st' := Benutzerliste.extractOrganisations rendered st in
  (exists names,
     Benutzerliste.organisations st' = map Str names
     /\ ascending names
     /\ forall s, In s names
                  <-> s <> "" /\ organisationNameIn (Benutzerliste.users rendered) s)
  /\ (Benutzerliste.users rendered = [] -> Benutzerliste.organisations st' = [])
  /\ Benutzerliste.users st' = Benutzerliste.users st
  /\ Benutzerliste.error st' = Benutzerliste.error st
  /\ Benutzerliste.extractOrganisations Benutzerliste.initial st
     = Benutzerliste.setOrganisations [] st.
Proof.
  intros Hwf. unfold Benutzerliste.extractOrganisations.
  destruct (organisationIndex_wellFormed _ Hwf) as (names & E & Ha & Hin).
  rewrite E. cbn zeta. split; [ | split; [ | repeat split]].
  - exists names. split; [reflexivity | split; assumption].
  - intros Hnil. rewrite Hnil in E. simpl in *.
    inversion E as [Hm]. reflexivity.
Qed.

Lemma extractOrganisations_index_witness :
  Benutzerliste.organisations
    (Benutzerliste.extractOrganisations Benutzerliste.initial Sample.loaded)
  = [].
Proof.
  refine (proj1 (proj2 (extractOrganisations_index Benutzerliste.initial
                          Sample.loaded _)) _).
  - constructor.
  - reflexivity.
Defined.

(** ** The draft of the form *)

(** X16: A change of a field stores the new text under the field's name and
    clears the error of that field; no other field, no other error and no
    flag of the form changes. *)
Theorem handleChange_sets_one_field (name value : string)
  (st : BenutzerForm.state) :
  let st' := BenutzerForm.handleChange name value st in
  prop (BenutzerForm.formData st') name = Str value
  /\ (forall k, k <> name ->
        prop (BenutzerForm.formData st') k = prop (BenutzerForm.formData st) k)
  /\ truthy (prop (BenutzerForm.errors st') name) = false
  /\ (forall k, k <> name ->
        prop (BenutzerForm.errors st') k = prop (BenutzerForm.errors st) k)
  /\ BenutzerForm.loading st' = BenutzerForm.loading st
  /\ BenutzerForm.error st' = BenutzerForm.error st
  /\ BenutzerForm.success st' = BenutzerForm.success st.
Proof.
  cbn zeta. rewrite handleChange_formData.
  split; [unfold prop; now rewrite lookup_setProp_same | ].
  split; [intros k Hk; now apply prop_setProp_other | ].
  unfold BenutzerForm.handleChange.
  destruct (truthy (prop (BenutzerForm.errors st) name)) eqn:E; simpl.
  - split; [unfold prop; now rewrite lookup_setProp_same | ].
    split; [intros k Hk; now apply prop_setProp_other | repeat split].
  - split; [exact E | repeat split].
Qed.

Lemma edit_userUid (events : list (string * string)) (st : BenutzerForm.state) :
  Forall (fun e => In (fst e) BenutzerForm.fieldNames) events ->
  lookup "userUid" (BenutzerForm.formData (edit events st))
  = lookup "userUid" (BenutzerForm.formData st).
Proof.
  intros H. revert st. induction H as [ | e events He _ IH]; intros st;
    [reflexivity | ].
  unfold edit in *. cbn [fold_left]. rewrite IH, handleChange_formData.
  apply lookup_setProp_other. intros Heq. rewrite <- Heq in He.
  repeat (destruct He as [He | He]; [discriminate | ]). exact He.
Qed.

(** X17: What a submission sends as identity: after the form has loaded a record
    and its fields have been edited, the draft holds the record's
    [userUid] (the empty string when the record has none); after the form
    has been opened for a new user the draft has no [userUid] at all. *)
Theorem submitted_identity (gtZero : value -> bool) (editUser : value)
  (st0 st1 : BenutzerForm.state) (events : list (string * string)) :
  BenutzerForm.load gtZero editUser st0 = Normal st1 ->
  Forall (fun e => In (fst e) BenutzerForm.fieldNames) events ->
  let draft := BenutzerForm.formData (edit events st1) in
  if truthy editUser
  then lookup "userUid" draft = Some (orValue (getOpt editUser "userUid") (Str ""))
  else lookup "userUid" draft = None.
Proof.
  intros Hload Hev draft. subst draft. rewrite edit_userUid by assumption.
  unfold BenutzerForm.load in Hload. destruct (truthy editUser) eqn:Et.
  - pose proof (truthy_not_nullish _ Et) as Hn.
    destruct (BenutzerForm.firstOrgOf gtZero editUser); [ | discriminate].
    cbn [bind] in Hload. rewrite !(get_getOpt editUser) in Hload by assumption.
    cbn [bind] in Hload.
    destruct (BenutzerForm.firstRoleOf gtZero a); [ | discriminate].
    cbn [bind] in Hload. inversion Hload; subst. reflexivity.
  - cbn [bind] in Hload. inversion Hload; subst. reflexivity.
Qed.

Lemma submitted_identity_witness :
  exists st1,
    BenutzerForm.load Sample.gtZero Sample.userA BenutzerForm.initial = Normal st1
    /\ lookup "userUid"
         (BenutzerForm.formData (edit [("phone", "0123"); ("mail", "a@b.de")] st1))
       = Some (Str "a").
Proof.
  eexists. split; [reflexivity | ].
  apply (submitted_identity Sample.gtZero Sample.userA BenutzerForm.initial _
           [("phone", "0123"); ("mail", "a@b.de")] eq_refl).
  repeat (constructor; [simpl; auto 10 | ]). constructor.
Defined.

Lemma change_formData_other (editUser : value) (name value k : string)
  (st : BenutzerForm.state) :
  k <> name ->
  lookup k (BenutzerForm.formData (BenutzerForm.change editUser name value st))
  = lookup k (BenutzerForm.formData st).
Proof.
  intros Hk. unfold BenutzerForm.change.
  destruct (BenutzerForm.disabled editUser st name); [reflexivity | ].
  rewrite handleChange_formData. now apply lookup_setProp_other.
Qed.

Lemma change_loading (editUser : value) (name value : string)
  (st : BenutzerForm.state) :
  BenutzerForm.loading (BenutzerForm.change editUser name value st)
  = BenutzerForm.loading st.
Proof.
  unfold BenutzerForm.change, BenutzerForm.handleChange.
  destruct (BenutzerForm.disabled editUser st name); [reflexivity | ].
  destruct (truthy (prop (BenutzerForm.errors st) name)); reflexivity.
Qed.

(** X18: While a record is edited its username cannot be changed: whatever the
    user does in the dialog, the draft keeps the username and the identity
    that the form loaded.  While a submission runs, no field can be
    changed. *)
Theorem username_fixed_while_editing (editUser : value)
  (events : list (string * string)) (st : BenutzerForm.state) :
  Forall (fun e => In (fst e) BenutzerForm.fieldNames) events ->
  (truthy editUser = true ->
   lookup "username" (BenutzerForm.formData (userEdit editUser events st))
   = lookup "username" (BenutzerForm.formData st)
   /\ lookup "userUid" (BenutzerForm.formData (userEdit editUser events st))
      = lookup "userUid" (BenutzerForm.formData st))
  /\ (BenutzerForm.loading st = true -> userEdit editUser events st = st).
Proof.
  intros Hev. split.
  - intros Ht. revert st. induction Hev as [ | e events He _ IH]; intros st;
      [split; reflexivity | ].
    unfold userEdit in *. cbn [fold_left]. destruct (IH
      (BenutzerForm.change editUser (fst e) (snd e) st)) as [H1 H2].
    rewrite H1, H2. split.
    + unfold BenutzerForm.change, BenutzerForm.disabled.
      destruct (fst e =? "username") eqn:E.
      * rewrite Ht, orb_true_r. reflexivity.
      * destruct (BenutzerForm.loading st); [reflexivity | ].
        rewrite handleChange_formData. apply lookup_setProp_other.
        intros Heq. rewrite <- Heq, String.eqb_refl in E. discriminate.
    + apply change_formData_other. intros Heq. rewrite <- Heq in He.
      repeat (destruct He as [He | He]; [discriminate | ]). exact He.
  - intros Hl. clear Hev. revert st Hl.
    induction events as [ | e events IH]; intros st Hl; [reflexivity | ].
    unfold userEdit in *. cbn [fold_left].
    assert (E : BenutzerForm.change editUser (fst e) (snd e) st = st).
    { unfold BenutzerForm.change, BenutzerForm.disabled. rewrite Hl.
      destruct (fst e =? "username"); reflexivity. }
    rewrite E. now apply IH.
Qed.

Lemma username_fixed_while_editing_witness :
  exists st1,
    BenutzerForm.load Sample.gtZero Sample.userA BenutzerForm.initial = Normal st1
    /\ lookup "username"
         (BenutzerForm.formData
            (userEdit Sample.userA [("username", "eve"); ("lastname", "Adler")] st1))
       = Some (Str "anna")
    /\ lookup "lastname"
         (BenutzerForm.formData
            (userEdit Sample.userA [("username", "eve"); ("lastname", "Adler")] st1))
       = Some (Str "Adler").
Proof.
  eexists. split; [reflexivity | split; [ | reflexivity]].
  rewrite (proj1 (proj1 (username_fixed_while_editing Sample.userA
                    [("username", "eve"); ("lastname", "Adler")] _
                    ltac:(repeat (constructor; [simpl; auto 10 | ]); constructor))
                  eq_refl)).
  reflexivity.
Defined.

(** ** The outcome of a submission *)

(** X19: A valid draft is sent with exactly one gateway call and is kept as it
    is, whatever the outcome.  Success raises the success flag and clears
    the error; a fault leaves the success flag alone and shows the message
    of the server's response when there is one, the fixed message
    otherwise.  In both cases the loading flag is down at the end. *)
Theorem handleSubmit_valid_outcomes (editUser : value) (reply : outcome)
  (st : BenutzerForm.state) :
  BenutzerForm.validateForm (BenutzerForm.formData st) = Normal ([], true) ->
  exists c st',
    BenutzerForm.handleSubmit editUser reply st = Normal ([c], st')
    /\ (c = UpdateUser (Obj (BenutzerForm.formData st))
        \/ c = CreateUser (Obj (BenutzerForm.formData st)))
    /\ BenutzerForm.formData st' = BenutzerForm.formData st
    /\ BenutzerForm.errors st' = []
    /\ BenutzerForm.loading st' = false
    /\ match reply with
       | Resolved _ =>
           BenutzerForm.success st' = true /\ BenutzerForm.error st' = Null
       | Rejected err =>
           BenutzerForm.success st' = BenutzerForm.success st
           /\ BenutzerForm.error st'
              = (if truthy (responseMessage err) then responseMessage err
                 else Str BenutzerForm.msgSave)
       end.
Proof.
  intros Hv. unfold BenutzerForm.handleSubmit. rewrite Hv.
  cbn [bind fst snd negb]. unfold andThen. cbn [bind].
  assert (Hc : exists b, (if truthy editUser
                          then u <- get editUser "userUid" ;; Normal (truthy u)
                          else Normal false) = Normal b).
  { destruct (truthy editUser) eqn:Et; [ | eauto].
    rewrite (get_getOpt _ _ (truthy_not_nullish _ Et)). cbn [bind]. eauto. }
  destruct Hc as [b ->].
  destruct reply as [data | err]; eexists; eexists;
    (split; [reflexivity | ]);
    (split; [destruct b; auto | ]); simpl; repeat split.
Qed.

Lemma handleSubmit_valid_outcomes_witness :
  exists c st',
    BenutzerForm.handleSubmit Null
      (Rejected {| responseMessage := Str "Benutzername vergeben" |})
      (BenutzerForm.setFormData (Sample.draftWithMail "a@b.com") BenutzerForm.initial)
    = Normal ([c], st')
    /\ BenutzerForm.formData st' = Sample.draftWithMail "a@b.com"
    /\ BenutzerForm.error st' = Str "Benutzername vergeben".
Proof.
  destruct (handleSubmit_valid_outcomes Null
              (Rejected {| responseMessage := Str "Benutzername vergeben" |})
              (BenutzerForm.setFormData (Sample.draftWithMail "a@b.com")
                 BenutzerForm.initial) eq_refl)
    as (c & st' & E & _ & Hd & _ & _ & _ & He).
  exists c, st'. split; [exact E | split; [exact Hd | exact He]].
Defined.

(** ** White space in the form's fields *)

Lemma trimStart_empty (s : string) : trimStart s = "" <-> allSpace s = true.
Proof.
  unfold allSpace. induction s as [ | c s IH]; simpl; [tauto | ].
  destruct (isSpace c); simpl; [exact IH | split; discriminate].
Qed.

Lemma trimEnd_empty (s : string) : trimEnd s = "" <-> allSpace s = true.
Proof.
  unfold allSpace. induction s as [ | c s IH]; simpl; [tauto | ].
  destruct (trimEnd s) eqn:E.
  - destruct (isSpace c); simpl.
    + split; [intros _; now apply IH | reflexivity].
    + split; discriminate.
  - split; [discriminate | ]. rewrite andb_true_iff. intros [_ H].
    apply IH in H. discriminate.
Qed.

Lemma allSpace_trimStart (s : string) : allSpace (trimStart s) = allSpace s.
Proof.
  unfold allSpace. induction s as [ | c s IH]; simpl; [reflexivity | ].
  destruct (isSpace c) eqn:E; simpl; [exact IH | now rewrite E].
Qed.

(** A string trims to nothing exactly when it is white space throughout. *)
Lemma trim_empty (s : string) : (trim s =? "") = allSpace s.
Proof.
  apply eq_true_iff_eq. rewrite String.eqb_eq. unfold trim.
  rewrite trimEnd_empty, allSpace_trimStart. reflexivity.
Qed.

Lemma blank_allSpace (v : value) : blank v = allSpace (textOf v).
Proof. unfold blank. apply trim_empty. Qed.

Lemma list_ascii_append (a b : string) :
  list_ascii_of_string (a ++ b)
  = (list_ascii_of_string a ++ list_ascii_of_string b)%list.
Proof. induction a; simpl; congruence. Qed.

Lemma notSpaceAt_not_space (c : ascii) :
  BenutzerForm.notSpaceAt c = true -> isSpace c = false.
Proof.
  unfold BenutzerForm.notSpaceAt. rewrite negb_true_iff, orb_false_iff. tauto.
Qed.

(** An address local@domain has no white space anywhere. *)
Lemma wellFormedMail_no_space (s : string) :
  wellFormedMail s ->
  forall c, In c (list_ascii_of_string s) -> isSpace c = false.
Proof.
  intros (a & b & d & -> & [_ Ha] & [_ Hb] & [_ Hd]) c Hc.
  rewrite !list_ascii_append in Hc. simpl in Hc.
  rewrite !in_app_iff in Hc. simpl in Hc. rewrite in_app_iff in Hc.
  simpl in Hc.
  destruct Hc as [H | [H | [H | [H | H]]]].
  - now apply notSpaceAt_not_space, Ha.
  - now subst c.
  - now apply notSpaceAt_not_space, Hb.
  - now subst c.
  - now apply notSpaceAt_not_space, Hd.
Qed.

Lemma expectedErrors_mail_message (formData : list (string * value)) :
  lookup "mail" (expectedErrors formData)
  = if blank (prop formData "mail")
    then Some (Str BenutzerForm.msgMailRequired)
    else if matches BenutzerForm.emailPattern (textOf (prop formData "mail"))
         then None
         else Some (Str BenutzerForm.msgMailInvalid).
Proof.
  unfold expectedErrors.
  destruct (blank (prop formData "username")),
           (blank (prop formData "firstname")),
           (blank (prop formData "lastname")),
           (blank (prop formData "mail")),
           (matches BenutzerForm.emailPattern (textOf (prop formData "mail")));
    reflexivity.
Qed.

(** X20: Which message a field gets.  A name field has its error exactly when it
    is white space throughout (or empty).  The e-mail is reported as
    required in that case, as invalid when it has other content that is no
    address local@domain, and not at all otherwise; the address is not
    trimmed before the test, so an e-mail with white space anywhere always
    gets one of the two messages. *)
Theorem validateForm_messages (formData : list (string * value)) :
  textualDraft formData ->
  exists errs valid,
    BenutzerForm.validateForm formData = Normal (errs, valid)
    /\ (forall f, In f ["username"; "firstname"; "lastname"] ->
          (lookup f errs <> None <-> allSpace (textOf (prop formData f)) = true))
    /\ (let m := textOf (prop formData "mail") in
        lookup "mail" errs
        = (if allSpace m then Some (Str BenutzerForm.msgMailRequired)
           else if matches BenutzerForm.emailPattern m then None
                else Some (Str BenutzerForm.msgMailInvalid))
        /\ ((exists c, In c (list_ascii_of_string m) /\ isSpace c = true) ->
            lookup "mail" errs <> None)).
Proof.
  intros Ht. eexists. eexists.
  split; [now apply validateForm_textual | split].
  - intros f Hf. rewrite expectedErrors_required by assumption.
    now rewrite blank_allSpace.
  - cbn zeta. rewrite expectedErrors_mail_message, blank_allSpace.
    split; [reflexivity | ].
    intros (c & Hc & Hs).
    destruct (allSpace (textOf (prop formData "mail"))); [discriminate | ].
    destruct (matches BenutzerForm.emailPattern (textOf (prop formData "mail")))
      eqn:Em; [ | discriminate].
    apply emailPattern_iff in Em.
    rewrite (wellFormedMail_no_space _ Em c Hc) in Hs. discriminate.
Qed.

Lemma validateForm_messages_witness :
  exists errs valid,
    BenutzerForm.validateForm (Sample.draftWithMail " a@b.com") = Normal (errs, valid)
    /\ lookup "mail" errs = Some (Str BenutzerForm.msgMailInvalid).
Proof.
  destruct (validateForm_messages (Sample.draftWithMail " a@b.com"))
    as (errs & valid & E & _ & Hm & _).
  - intros f [<- | [<- | [<- | [<- | []]]]]; reflexivity.
  - exists errs, valid. split; [exact E | ]. rewrite Hm. reflexivity.
Defined.

(** ** The first membership, in the form and in the table *)

Lemma gtZero_length (gtZero : value -> bool) {A} (x : A) (l : list A) :
  comparesNumbers gtZero ->
  gtZero (Number (Z.of_nat (List.length (x :: l)))) = true.
Proof.
  intros [H _]. rewrite H. apply Z.ltb_lt. simpl List.length. lia.
Qed.

Lemma gtZero_zero (gtZero : value -> bool) :
  comparesNumbers gtZero -> gtZero (Number 0) = false.
Proof. intros [H _]. now rewrite H. Qed.

Lemma showable_inv (props : list (string * value)) :
  showable (Obj props) = true ->
  (nullish (prop props "organisations") = true
   /\ firstMembership (Obj props) = Null)
  \/ exists orgs, prop props "organisations" = Arr orgs
                  /\ Forall (fun o => wellFormedRoles o = true) orgs.
Proof.
  unfold showable, firstMembership, getOpt. cbn [get].
  destruct (prop props "organisations"); try discriminate; auto.
  intros H. right. exists elems. split; [reflexivity | ].
  apply Forall_forall. rewrite forallb_forall in H. exact H.
Qed.

Lemma firstOrgOf_showable (gtZero : value -> bool)
  (props : list (string * value)) :
  comparesNumbers gtZero ->
  showable (Obj props) = true ->
  BenutzerForm.firstOrgOf gtZero (Obj props)
  = Normal (firstMembership (Obj props)).
Proof.
  intros Hg Hs. unfold BenutzerForm.firstOrgOf, firstMembership, getOpt.
  cbn [get bind andThen].
  destruct (showable_inv props Hs) as [[Hn _] | (orgs & E & _)].
  - destruct (prop props "organisations"); try discriminate; reflexivity.
  - rewrite E. cbn [truthy get String.eqb Ascii.eqb Bool.eqb bind].
    destruct orgs as [ | org orgs].
    + cbn [List.length Z.of_nat]. now rewrite (gtZero_zero gtZero Hg).
    + now rewrite (gtZero_length gtZero org orgs Hg).
Qed.

Lemma wellFormedRoles_inv (org : value) :
  wellFormedRoles org = true ->
  nullish org = false
  /\ (nullish (getOpt org "roles") = true
      \/ exists rs, getOpt org "roles" = Arr rs
                    /\ Forall (fun r => nullish r = false) rs).
Proof.
  destruct org as [ | | b | n | s | l | oprops ]; simpl; try discriminate.
  unfold getOpt. cbn [get].
  destruct (prop oprops "roles"); try discriminate; auto.
  intros H. split; [reflexivity | right]. exists elems. split; [reflexivity | ].
  apply Forall_forall. rewrite forallb_forall in H.
  intros r Hr. now apply negb_true_iff, H.
Qed.

Lemma firstRoleOf_showable (gtZero : value -> bool) (org : value) :
  comparesNumbers gtZero ->
  org = Null \/ wellFormedRoles org = true ->
  BenutzerForm.firstRoleOf gtZero org
  = Normal (match firstRole org with Some name => name | None => Str "" end).
Proof.
  intros Hg [-> | Hw]; [reflexivity | ].
  destruct (wellFormedRoles_inv org Hw) as (Hn & Hr).
  unfold BenutzerForm.firstRoleOf, firstRole.
  rewrite !(get_getOpt org) by assumption. unfold andThen. cbn [bind].
  destruct Hr as [Hnull | (rs & E & Hall)].
  - destruct (getOpt org "roles"); try discriminate; reflexivity.
  - rewrite E. cbn [truthy get String.eqb Ascii.eqb Bool.eqb bind].
    destruct rs as [ | r rs].
    + cbn [List.length Z.of_nat]. now rewrite (gtZero_zero gtZero Hg).
    + rewrite (gtZero_length gtZero r rs Hg). cbn [first nth bind].
      inversion Hall; subst. now rewrite (get_getOpt r).
Qed.

Lemma firstMembership_wellFormed (props : list (string * value)) :
  showable (Obj props) = true ->
  firstMembership (Obj props) = Null
  \/ wellFormedRoles (firstMembership (Obj props)) = true.
Proof.
  intros Hs. destruct (showable_inv props Hs) as [[_ H] | (orgs & E & Hall)];
    [now left | ].
  unfold firstMembership, getOpt. cbn [get]. rewrite E.
  destruct Hall; [now left | now right].
Qed.

(** X21: The form edits one organisation and one role: loading a record of the
    data model never fails, clears the errors and the flags, and fills the
    two fields from the first membership and its first role; they are
    empty when the record has no membership, or the membership no role. *)
Theorem load_first_membership (gtZero : value -> bool)
  (props : list (string * value)) (st : BenutzerForm.state) :
  comparesNumbers gtZero ->
  showable (Obj props) = true ->
  exists st1,
    BenutzerForm.load gtZero (Obj props) st = Normal st1
    /\ BenutzerForm.errors st1 = []
    /\ BenutzerForm.error st1 = Null
    /\ BenutzerForm.success st1 = false
    /\ prop (BenutzerForm.formData st1) "organisation"
       = orValue (getOpt (firstMembership (Obj props)) "orgName") (Str "")
    /\ prop (BenutzerForm.formData st1) "role"
       = match firstRole (firstMembership (Obj props)) with
         | Some name => name
         | None => Str ""
         end.
Proof.
  intros Hg Hs. unfold BenutzerForm.load. cbn [truthy].
  rewrite (firstOrgOf_showable gtZero props Hg Hs). cbn [bind get].
  rewrite (firstRoleOf_showable gtZero _ Hg (firstMembership_wellFormed props Hs)).
  cbn [bind]. eexists. split; [reflexivity | ]. repeat split.
Qed.

Lemma sample_gtZero_compares : comparesNumbers Sample.gtZero.
Proof. split; reflexivity. Qed.

Lemma load_first_membership_witness :
  exists st1,
    BenutzerForm.load Sample.gtZero Sample.userA BenutzerForm.initial = Normal st1
    /\ prop (BenutzerForm.formData st1) "organisation" = Str "Acme"
    /\ prop (BenutzerForm.formData st1) "role" = Str "ADMIN".
Proof.
  destruct (load_first_membership Sample.gtZero
              [("userUid", Str "a"); ("username", Str "anna");
               ("firstname", Str "Anna"); ("lastname", Str "Arndt");
               ("mail", Str "anna@example.org");
               ("organisations",
                Arr [Obj [("orgName", Str "Acme");
                          ("roles", Arr [Obj [("roleName", Str "ADMIN")]])]])]
              BenutzerForm.initial)
    as (st1 & E & _ & _ & _ & Ho & Hr).
  - split; reflexivity.
  - reflexivity.
  - exists st1. split; [exact E | ]. rewrite Ho, Hr. split; reflexivity.
Defined.

(** X22: The table row shows the same membership: its organisation cell is the
    name of the first membership and its role cell the name of that
    membership's first role, each replaced by a dash when there is none. *)
Theorem row_shows_first_membership (gtZero : value -> bool)
  (props : list (string * value)) :
  comparesNumbers gtZero ->
  showable (Obj props) = true ->
  Benutzerliste.cellOrganisation gtZero (Obj props)
  = Normal (match getOpt (Obj props) "organisations" with
            | Arr (org :: _) => getOpt org "orgName"
            | _ => Str "-"
            end)
  /\ Benutzerliste.cellRole gtZero (Obj props)
     = Normal (match firstRole (firstMembership (Obj props)) with
               | Some name => name
               | None => Str "-"
               end).
Proof.
  intros Hg Hs.
  assert (Hf : Benutzerliste.rowFirstOrg gtZero (Obj props)
               = Normal (firstMembership (Obj props)))
    by (exact (firstOrgOf_showable gtZero props Hg Hs)).
  unfold Benutzerliste.cellOrganisation, Benutzerliste.cellRole.
  rewrite Hf. cbn [bind].
  destruct (showable_inv props Hs) as [[Hn Hnone] | (orgs & E & Hall)].
  - rewrite Hnone. unfold getOpt. cbn [get].
    destruct (prop props "organisations"); try discriminate; split; reflexivity.
  - unfold firstMembership, getOpt. cbn [get]. rewrite E.
    destruct Hall as [ | org orgs Horg _]; [split; reflexivity | ].
    destruct (wellFormedRoles_inv org Horg) as (Hn & Hr).
    assert (Ht : truthy org = true).
    { destruct org; simpl in Horg; try discriminate; reflexivity. }
    rewrite Ht. rewrite !(get_getOpt org) by assumption.
    split; [reflexivity | ].
    unfold andThen. cbn [bind]. unfold firstRole.
    destruct Hr as [Hnull | (rs & Er & Hrs)].
    + destruct (getOpt org "roles"); try discriminate; reflexivity.
    + rewrite Er. cbn [truthy get String.eqb Ascii.eqb Bool.eqb bind].
      destruct rs as [ | r rs].
      * cbn [List.length Z.of_nat]. now rewrite (gtZero_zero gtZero Hg).
      * rewrite (gtZero_length gtZero r rs Hg). cbn [first nth bind].
        inversion Hrs; subst. now rewrite (get_getOpt r).
Qed.

Lemma row_shows_first_membership_witness :
  Benutzerliste.cellOrganisation Sample.gtZero Sample.userB = Normal (Str "Acme")
  /\ Benutzerliste.cellRole Sample.gtZero Sample.userB = Normal (Str "-").
Proof.
  destruct (row_shows_first_membership Sample.gtZero
              [("userUid", Str "b"); ("username", Str "bob");
               ("firstname", Str "Bob"); ("lastname", Str "Berg");
               ("mail", Str "bob@example.org");
               ("organisations",
                Arr [Obj [("orgName", Str "Acme"); ("roles", Arr [])]])])
    as (Ho & Hr).
  - split; reflexivity.
  - reflexivity.
  - split; [exact Ho | exact Hr].
Defined.

(** ** The detail view *)

Lemma mapM_pure {A B} (f : A -> completion B) (g : A -> B) (l : list A) :
  (forall x, In x l -> f x = Normal (g x)) ->
  mapM f l = Normal (map g l).
Proof.
  induction l as [ | x l IH]; intros H; simpl; [reflexivity | ].
  rewrite (H x) by (simpl; auto). cbn [bind].
  rewrite IH by (intros y Hy; apply H; simpl; auto). reflexivity.
Qed.

Lemma renderMembership_wellFormed (gtZero : value -> bool) (org : value) :
  comparesNumbers gtZero ->
  wellFormedRoles org = true ->
  BenutzerDetail.renderMembership gtZero org = Normal (shownMembership org).
Proof.
  intros Hg Hw. destruct (wellFormedRoles_inv org Hw) as (Hn & Hr).
  unfold BenutzerDetail.renderMembership, shownMembership, roleNames.
  rewrite !(get_getOpt org) by assumption. unfold andThen. cbn [bind].
  destruct Hr as [Hnull | (rs & E & Hall)].
  - destruct (getOpt org "roles"); try discriminate; reflexivity.
  - rewrite E. cbn [truthy get String.eqb Ascii.eqb Bool.eqb bind].
    destruct rs as [ | r rs].
    + cbn [List.length Z.of_nat]. now rewrite (gtZero_zero gtZero Hg).
    + rewrite (gtZero_length gtZero r rs Hg).
      cbn [BenutzerDetail.mapArray bind].
      rewrite (mapM_pure _ (fun x => getOpt x "roleName")); [reflexivity | ].
      intros x Hx. rewrite Forall_forall in Hall. now apply get_getOpt, Hall.
Qed.

(** X23: The detail view shows every membership of a record of the data model,
    in the order of the record, each with the names of all its roles; a
    membership without roles is shown as such, not as one with an empty
    list of roles.  The view never fails on such a record. *)
Theorem render_shows_all_memberships (gtZero : value -> bool)
  (props : list (string * value)) :
  comparesNumbers gtZero ->
  showable (Obj props) = true ->
  exists v,
    BenutzerDetail.render gtZero (Obj props) = Normal (Some v)
    /\ BenutzerDetail.memberships v = map shownMembership (memberships (Obj props))
    /\ (forall m, In m (BenutzerDetail.memberships v) ->
          BenutzerDetail.roles m <> Some []).
Proof.
  intros Hg Hs. unfold BenutzerDetail.render, memberships, andThen.
  cbn [truthy negb get bind].
  assert (Hno : forall org, roleNames org <> Some []).
  { intros org. unfold roleNames.
    destruct (getOpt org "roles") as [ | | | | | [ | r rs] | ]; discriminate. }
  destruct (showable_inv props Hs) as [[Hn _] | (orgs & E & Hall)].
  - destruct (prop props "organisations"); try discriminate;
      cbn [truthy bind]; (eexists; split; [reflexivity | split;
        [reflexivity | intros m []]]).
  - rewrite E. cbn [truthy get String.eqb Ascii.eqb Bool.eqb bind].
    destruct orgs as [ | org orgs].
    + cbn [List.length Z.of_nat]. rewrite (gtZero_zero gtZero Hg).
      cbn [bind]. eexists. split; [reflexivity | split;
        [reflexivity | intros m []]].
    + rewrite (gtZero_length gtZero org orgs Hg).
      cbn [BenutzerDetail.mapArray bind].
      rewrite (mapM_pure _ shownMembership).
      * cbn [bind]. eexists. split; [reflexivity | split; [reflexivity | ]].
        cbn [BenutzerDetail.memberships]. intros m Hm.
        apply in_map_iff in Hm. destruct Hm as (o & <- & _). apply Hno.
      * intros o Ho. rewrite Forall_forall in Hall.
        now apply renderMembership_wellFormed, Hall.
Qed.

Lemma render_shows_all_memberships_witness :
  exists v,
    BenutzerDetail.render Sample.gtZero Sample.userB = Normal (Some v)
    /\ BenutzerDetail.memberships v
       = [{| BenutzerDetail.organisation := Str "Acme";
             BenutzerDetail.roles := None |}].
Proof.
  destruct (render_shows_all_memberships Sample.gtZero
              [("userUid", Str "b"); ("username", Str "bob");
               ("firstname", Str "Bob"); ("lastname", Str "Berg");
               ("mail", Str "bob@example.org");
               ("organisations",
                Arr [Obj [("orgName", Str "Acme"); ("roles", Arr [])]])])
    as (v & E & Hm & _).
  - split; reflexivity.
  - reflexivity.
  - exists v. split; [exact E | ]. rewrite Hm. reflexivity.
Defined.

(** X24: The form opens with what the detail view shows: whenever both can show
    a record, the draft's first name, last name, username, e-mail and phone
    are the values of the detail view's fields. *)
Theorem form_loads_what_detail_shows (gtZero : value -> bool) (user : value)
  (st st1 : BenutzerForm.state) (v : BenutzerDetail.view) :
  BenutzerDetail.render gtZero user = Normal (Some v) ->
  BenutzerForm.load gtZero user st = Normal st1 ->
  prop (BenutzerForm.formData st1) "firstname" = BenutzerDetail.firstname v
  /\ prop (BenutzerForm.formData st1) "lastname" = BenutzerDetail.lastname v
  /\ prop (BenutzerForm.formData st1) "username" = BenutzerDetail.username v
  /\ prop (BenutzerForm.formData st1) "mail" = BenutzerDetail.mail v
  /\ prop (BenutzerForm.formData st1) "phone" = BenutzerDetail.phone v.
Proof.
  unfold BenutzerDetail.render, BenutzerForm.load.
  destruct (truthy user) eqn:Et; cbn [negb]; [ | discriminate].
  pose proof (truthy_not_nullish _ Et) as Hn.
  rewrite !(get_getOpt user) by assumption. cbn [bind].
  destruct (andThen _ _) as [b | ]; [ | discriminate]. cbn [bind].
  intros Hr.
  destruct (if b then _ else _) as [ms | ] in Hr; [ | discriminate].
  cbn [bind] in Hr. inversion Hr; subst v. clear Hr.
  destruct (BenutzerForm.firstOrgOf gtZero user); [ | discriminate].
  cbn [bind].
  destruct (BenutzerForm.firstRoleOf gtZero a); [ | discriminate].
  cbn [bind]. intros H. inversion H; subst st1. repeat split.
Qed.

Lemma form_loads_what_detail_shows_witness :
  exists st1,
    BenutzerForm.load Sample.gtZero (Obj Sample.maxProps) BenutzerForm.initial
    = Normal st1
    /\ prop (BenutzerForm.formData st1) "firstname" = Str "Max"
    /\ prop (BenutzerForm.formData st1) "mail" = Str "mm@example.org".
Proof.
  eexists. split; [reflexivity | ].
  destruct (form_loads_what_detail_shows Sample.gtZero (Obj Sample.maxProps)
              BenutzerForm.initial _ _ eq_refl eq_refl)
    as (Hf & _ & _ & Hm & _).
  split; [exact Hf | exact Hm].
Defined.

(** X25: A role that is [null]: when the first membership of a record has
    [null] as its first role, the effect that loads the form, the role
    cell of the table row and the detail view all end in a TypeError. *)
Theorem null_role_breaks_display (gtZero : value -> bool)
  (props oprops : list (string * value)) (orgs rs : list value) (r : value)
  (st : BenutzerForm.state) :
  comparesNumbers gtZero ->
  prop props "organisations" = Arr (Obj oprops :: orgs) ->
  prop oprops "roles" = Arr (r :: rs) ->
  nullish r = true ->
  BenutzerForm.load gtZero (Obj props) st = Throw TypeError
  /\ Benutzerliste.cellRole gtZero (Obj props) = Throw TypeError
  /\ BenutzerDetail.render gtZero (Obj props) = Throw TypeError.
Proof.
  intros Hg Ho Hr Hn.
  assert (Hget : get r "roleName" = Throw TypeError)
    by (destruct r; try discriminate; reflexivity).
  pose proof (gtZero_length gtZero (Obj oprops) orgs Hg) as G1.
  pose proof (gtZero_length gtZero r rs Hg) as G2.
  split; [ | split].
  - unfold BenutzerForm.load, BenutzerForm.firstOrgOf, BenutzerForm.firstRoleOf,
      andThen, getOpt.
    cbn [truthy get bind]. rewrite Ho.
    cbn [truthy get String.eqb Ascii.eqb Bool.eqb bind]. rewrite G1.
    cbn [first nth bind get]. rewrite Hr.
    cbn [truthy get String.eqb Ascii.eqb Bool.eqb bind]. rewrite G2.
    cbn [first nth bind]. now rewrite Hget.
  - unfold Benutzerliste.cellRole, Benutzerliste.rowFirstOrg, andThen.
    cbn [truthy get bind]. rewrite Ho.
    cbn [truthy get String.eqb Ascii.eqb Bool.eqb bind]. rewrite G1.
    cbn [first nth bind get truthy]. rewrite Hr.
    cbn [truthy get String.eqb Ascii.eqb Bool.eqb bind]. rewrite G2.
    cbn [first nth bind]. now rewrite Hget.
  - unfold BenutzerDetail.render, andThen.
    cbn [truthy negb get bind]. rewrite Ho.
    cbn [truthy get String.eqb Ascii.eqb Bool.eqb bind]. rewrite G1.
    cbn [BenutzerDetail.mapArray mapM bind].
    unfold BenutzerDetail.renderMembership at 1, andThen.
    cbn [get bind]. rewrite Hr.
    cbn [truthy get String.eqb Ascii.eqb Bool.eqb bind]. rewrite G2.
    cbn [BenutzerDetail.mapArray mapM bind]. now rewrite Hget.
Qed.

Lemma null_role_breaks_display_witness :
  BenutzerForm.load Sample.gtZero
    (Obj [("userUid", Str "n");
          ("organisations", Arr [Obj [("orgName", Str "Acme");
                                      ("roles", Arr [Null])]])])
    BenutzerForm.initial
  = Throw TypeError.
Proof.
  apply (proj1 (null_role_breaks_display Sample.gtZero
                  [("userUid", Str "n");
                   ("organisations", Arr [Obj [("orgName", Str "Acme");
                                               ("roles", Arr [Null])]])]
                  [("orgName", Str "Acme"); ("roles", Arr [Null])]
                  [] [] Null BenutzerForm.initial
                  (conj (fun n => eq_refl) eq_refl) eq_refl eq_refl eq_refl)).
Defined.

(** ** Upper and lower case in the search *)

(** X11: Two search terms that differ in case only give the same list, for any
    list of records whatever. *)
Theorem filtered_ignores_case (l : list value) (term1 term2 selection : string) :
  lower term1 = lower term2 ->
  Benutzerliste.filtered l term1 selection
  = Benutzerliste.filtered l term2 selection.
Proof.
  intros H. unfold Benutzerliste.filtered.
  assert (E : truthy (Str term1) = truthy (Str term2)).
  { destruct term1, term2; simpl in *; try reflexivity; discriminate. }
  now rewrite E, H.
Qed.

Lemma filtered_ignores_case_witness :
  Benutzerliste.filtered [Sample.userA; Sample.userB] "BOB" ""
  = Benutzerliste.filtered [Sample.userA; Sample.userB] "bob" "".
Proof. apply filtered_ignores_case. reflexivity. Defined.

(** ** A list that can be stored but not indexed *)

Lemma forEach_throws {A S} (f : S -> A -> completion S) (l : list A) (x : A) :
  In x l -> (forall s, f s x = Throw TypeError) ->
  forall s, forEach f l s = Throw TypeError.
Proof.
  intros Hin Hx. induction l as [ | y l IH]; intros s; [contradiction | ].
  simpl. destruct Hin as [-> | Hin].
  - now rewrite Hx.
  - destruct (f s y) as [s' | []]; cbn [bind]; [now apply IH | reflexivity].
Qed.

(** X15: When a membership in the delivered list is [null], the list is stored
    all the same, but the index is not recomputed and the load error is
    shown: the screen has the new users, the old organisations and an
    error. *)
Theorem fetchUsers_null_membership (params : value) (l orgs : list value)
  (u o : value) (st : Benutzerliste.state) :
  In u l ->
  get u "organisations" = Normal (Arr orgs) ->
  In o orgs -> nullish o = true ->
  let st' := snd (Benutzerliste.fetchUsers params (Resolved (Arr l)) st) in
  Benutzerliste.users st' = l
  /\ Benutzerliste.organisations st' = Benutzerliste.organisations st
  /\ Benutzerliste.error st' = Some Benutzerliste.msgLoad
  /\ Benutzerliste.loading st' = false.
Proof.
  intros Hu Hg Ho Hn.
  assert (Hidx : Benutzerliste.organisationIndex l = Throw TypeError).
  { unfold Benutzerliste.organisationIndex.
    rewrite (forEach_throws _ l u Hu); [reflexivity | ].
    intros s. unfold Benutzerliste.addOrganisationsOf, andThen.
    rewrite Hg. cbn [bind truthy isArray elements].
    apply (forEach_throws _ orgs o Ho).
    intros s'. unfold Benutzerliste.addOrganisation.
    destruct o; try discriminate; reflexivity. }
  unfold Benutzerliste.fetchUsers.
  change (Benutzerliste.extractUserList (Arr l)) with (Normal (Arr l)).
  cbn [Benutzerliste.asArray isArray elements andb].
  destruct l as [ | x l]; [contradiction | ].
  cbn [List.length Nat.ltb Nat.leb]. rewrite Hidx. repeat split.
Qed.

Lemma fetchUsers_null_membership_witness :
  let broken := Obj [("userUid", Str "x"); ("organisations", Arr [Null])] in
  let st' := snd (Benutzerliste.fetchUsers (Obj [])
                    (Resolved (Arr [Sample.userC; broken])) Sample.loaded) in
  Benutzerliste.users st' = [Sample.userC; broken]
  /\ Benutzerliste.organisations st' = [Str "Acme"]
  /\ Benutzerliste.error st' = Some Benutzerliste.msgLoad.
Proof.
  cbn zeta.
  destruct (fetchUsers_null_membership (Obj [])
              [Sample.userC; Obj [("userUid", Str "x"); ("organisations", Arr [Null])]]
              [Null] (Obj [("userUid", Str "x"); ("organisations", Arr [Null])])
              Null Sample.loaded)
    as (H1 & H2 & H3 & _).
  - simpl. auto.
  - reflexivity.
  - simpl. auto.
  - reflexivity.
  - split; [exact H1 | split; [exact H2 | exact H3]].
Defined.
